(** * The tasks-api MCP server (src/index.js)

    A shallow embedding of the two request handlers the server registers:
    the tool catalogue ([ListToolsRequestSchema]) and the tool dispatcher
    ([CallToolRequestSchema]), together with the parts of the JavaScript
    platform the dispatcher calls: property reads, truthiness, string
    conversion, [JSON.stringify], [URLSearchParams] and [fetch].

    Conventions.
    - A JavaScript string is held as the [string] of its UTF-8 bytes.
    - [undefined] is [None]; a defined value is a [json] value, which is what
      a request's argument bag and a parsed response body are made of.
    - A Number of the model is a safe integer: an integer of magnitude at
      most 2^53 - 1, carried with the proof of that bound.  These are the
      integers a Number holds exactly, and [Number::toString] gives each
      its plain decimal numeral.  Fractions and larger magnitudes have no
      value in the model.
    - The network is an oracle of the host: [fetch] maps the request to the
      settled outcome of its promise, a rejection or a response.  A call
      that never settles is outside the model.
    - [request.params.arguments] is optional in the protocol: the argument
      bag of an invocation is an object or [undefined]. *)

From Stdlib Require Import String Ascii List ZArith Bool Lia.
From Stdlib Require Import DecimalString DecimalZ DecimalPos.
Import ListNotations.
Open Scope list_scope.
Open Scope string_scope.

(** ** JavaScript values *)

Module JS.

(** [Number.MAX_SAFE_INTEGER], 2^53 - 1. *)
Definition MAX_SAFE_INTEGER : Z := 9007199254740991.

Definition safe_integer (z : Z) : bool := Z.leb (Z.abs z) MAX_SAFE_INTEGER.

(** The Numbers of the model: the safe integers. *)
Record Number : Type := mkNumber {
  integer : Z;
  is_safe : safe_integer integer = true
}.

#[warnings="-register-all"]
Inductive json : Type :=
| JNull
| JBool (b : bool)
| JNum (n : Number)
| JStr (s : string)
| JArr (elements : list json)
| JObj (properties : list (string * json)).

(** An object's own properties, in enumeration order. *)
Definition object : Type := list (string * json).

(** A value that may be [undefined]. *)
Definition value : Type := option json.

Definition undefined : value := None.

(** [o.key] on an object: the first own property of that name. *)
Fixpoint lookup (key : string) (o : object) : value :=
  match o with
  | [] => undefined
  | (k, v) :: rest => if String.eqb k key then Some v else lookup key rest
  end.

(** The properties of [o] other than [key], in their order: what a rest
    pattern collects once [key] has been taken out. *)
Fixpoint without (key : string) (o : object) : object :=
  match o with
  | [] => []
  | (k, v) :: rest =>
      if String.eqb k key then without key rest else (k, v) :: without key rest
  end.

Definition has_own (key : string) (o : object) : bool :=
  match lookup key o with Some _ => true | None => false end.

(** Thrown values.  The handler reads nothing but [message]. *)
Record Error : Type := mkError { error_name : string; message : string }.

(** The faults the engine itself raises in the handler; the wording of
    their messages belongs to the engine. *)
Inductive fault : Type :=
| ReadOfUndefined (key : string)
| ReadOfNull (key : string)
| DestructureOfUndefined (key : string)
| NotAFunction (callee : string)
| NoPrimitiveValue.

Definition TypeError (wording : fault -> string) (f : fault) : Error :=
  mkError "TypeError" (wording f).

(** ToBoolean. *)
Definition truthy (v : value) : bool :=
  match v with
  | None => false
  | Some JNull => false
  | Some (JBool b) => b
  | Some (JNum n) => negb (Z.eqb (integer n) 0)
  | Some (JStr s) => negb (String.eqb s "")
  | Some (JArr _) => true
  | Some (JObj _) => true
  end.

(** Number::toString in radix 10, on a safe integer: its decimal numeral,
    with a minus sign when negative (the exponent form starts at 10^21,
    beyond the safe integers). *)
Definition Number_toString (n : Number) : string :=
  NilZero.string_of_int (Z.to_int (integer n)).

Definition Boolean_toString (b : bool) : string :=
  if b then "true" else "false".

Fixpoint join (sep : string) (parts : list string) : string :=
  match parts with
  | [] => ""
  | [p] => p
  | p :: rest => p ++ sep ++ join sep rest
  end.

(** All the results, or the first failure. *)
Fixpoint sequence {E A : Type} (l : list (E + A)) : E + list A :=
  match l with
  | [] => inr []
  | inl e :: _ => inl e
  | inr a :: rest =>
      match sequence rest with
      | inl e => inl e
      | inr r => inr (a :: r)
      end
  end.

Section Conversions.

Variable wording : fault -> string.

(** ToString on a defined value.  An array goes through
    [Array.prototype.join]: a [null] element gives the empty string, the
    others are converted in turn.  An object parsed from JSON has no method
    of its own: without an own [toString] property it inherits
    [Object.prototype.toString]; with one (which is not callable) no
    primitive is found and the conversion throws. *)
Fixpoint ToString_json (v : json) : Error + string :=
  match v with
  | JNull => inr "null"
  | JBool b => inr (Boolean_toString b)
  | JNum n => inr (Number_toString n)
  | JStr s => inr s
  | JArr elements =>
      let element (e : json) : Error + string :=
        match e with
        | JNull => inr ""
        | _ => ToString_json e
        end in
      match sequence
              ((fix each (l : list json) : list (Error + string) :=
                  match l with
                  | [] => []
                  | e :: rest => element e :: each rest
                  end) elements) with
      | inl err => inl err
      | inr parts => inr (join "," parts)
      end
  | JObj properties =>
      if has_own "toString" properties
      then inl (TypeError wording NoPrimitiveValue)
      else inr "[object Object]"
  end.

(** ToString, as a template literal and [URLSearchParams.append] apply it. *)
Definition ToString (v : value) : Error + string :=
  match v with
  | None => inr "undefined"
  | Some j => ToString_json j
  end.

(** [v.toString()], the callee being written [callee] in the source.
    Reading a property of [undefined] or [null] throws; the primitives
    have their prototype's method; arrays and objects are as above, but
    an own [toString] property is now called, and is no function. *)
Definition call_toString (callee : string) (v : value) : Error + string :=
  match v with
  | None => inl (TypeError wording (ReadOfUndefined "toString"))
  | Some JNull => inl (TypeError wording (ReadOfNull "toString"))
  | Some (JObj properties) =>
      if has_own "toString" properties
      then inl (TypeError wording (NotAFunction callee))
      else inr "[object Object]"
  | Some j => ToString_json j
  end.

End Conversions.

(** *** JSON.stringify *)

Definition hex_digit (lower : bool) (n : N) : ascii :=
  let base := if lower then "a"%char else "A"%char in
  if N.ltb n 10 then ascii_of_N (N_of_ascii "0" + n)
  else ascii_of_N (N_of_ascii base + (n - 10)).

Definition hex_byte (lower : bool) (c : ascii) : string :=
  let n := N_of_ascii c in
  String (hex_digit lower (N.div n 16))
         (String (hex_digit lower (N.modulo n 16)) "").

(** QuoteJSONString, character by character. *)
Definition quote_char (c : ascii) : string :=
  let n := N_of_ascii c in
  if N.eqb n 8 then "\b"
  else if N.eqb n 9 then "\t"
  else if N.eqb n 10 then "\n"
  else if N.eqb n 12 then "\f"
  else if N.eqb n 13 then "\r"
  else if N.eqb n 34 then String "\" (String c "")
  else if N.eqb n 92 then "\\"
  else if N.ltb n 32 then "\u00" ++ hex_byte true c
  else String c "".

Fixpoint quote_chars (s : string) : string :=
  match s with
  | EmptyString => ""
  | String c rest => quote_char c ++ quote_chars rest
  end.

Definition double_quote : string := String (ascii_of_N 34) "".

Definition QuoteJSONString (s : string) : string :=
  double_quote ++ quote_chars s ++ double_quote.

Definition newline : string := String (ascii_of_N 10) "".

(** The closing steps of SerializeJSONObject and SerializeJSONArray. *)
Definition wrap (open close gap stepback indent : string)
           (partial : list string) : string :=
  match partial with
  | [] => open ++ close
  | _ =>
      if String.eqb gap ""
      then open ++ join "," partial ++ close
      else open ++ newline ++ indent
             ++ join ("," ++ newline ++ indent) partial
             ++ newline ++ stepback ++ close
  end.

Definition member (gap key str : string) : string :=
  QuoteJSONString key ++ ":" ++ (if String.eqb gap "" then "" else " ") ++ str.

(** SerializeJSONProperty on a defined value. *)
Fixpoint SerializeJSONProperty (gap indent : string) (v : json) : string :=
  match v with
  | JNull => "null"
  | JBool b => Boolean_toString b
  | JNum n => Number_toString n
  | JStr s => QuoteJSONString s
  | JArr elements =>
      let stepback := indent in
      let indent := indent ++ gap in
      wrap "[" "]" gap stepback indent
        ((fix each (l : list json) : list string :=
            match l with
            | [] => []
            | e :: rest => SerializeJSONProperty gap indent e :: each rest
            end) elements)
  | JObj properties =>
      let stepback := indent in
      let indent := indent ++ gap in
      wrap "{" "}" gap stepback indent
        ((fix each (l : list (string * json)) : list string :=
            match l with
            | [] => []
            | (k, e) :: rest =>
                member gap k (SerializeJSONProperty gap indent e) :: each rest
            end) properties)
  end.

(** [JSON.stringify(v)]. *)
Definition JSON_stringify (v : json) : string :=
  SerializeJSONProperty "" "" v.

(** [JSON.stringify(v, null, 2)]. *)
Definition JSON_stringify_2 (v : json) : string :=
  SerializeJSONProperty "  " "" v.

(** An object literal whose property values may be [undefined]:
    SerializeJSONObject leaves such a property out. *)
Fixpoint defined_properties (l : list (string * value)) : object :=
  match l with
  | [] => []
  | (k, Some v) :: rest => (k, v) :: defined_properties rest
  | (_, None) :: rest => defined_properties rest
  end.

Definition JSON_stringify_literal (l : list (string * value)) : string :=
  JSON_stringify (JObj (defined_properties l)).

End JS.

(** ** URLSearchParams

    The application/x-www-form-urlencoded serializer of the URL Standard:
    each name and each value is encoded to UTF-8 and percent-encoded byte
    by byte with the application/x-www-form-urlencoded percent-encode set
    and a space as a plus sign; a pair is [name=value] and the pairs are
    joined by an ampersand.  That set holds every byte but the ASCII
    alphanumerics and the four characters in [unescaped] below; it is the
    component percent-encode set together with the exclamation mark, the
    apostrophe, both parentheses and the tilde. *)

Module URL.

Definition in_range (lo hi : ascii) (c : ascii) : bool :=
  N.leb (N_of_ascii lo) (N_of_ascii c) && N.leb (N_of_ascii c) (N_of_ascii hi).

Definition alphanumeric (c : ascii) : bool :=
  in_range "0" "9" c || in_range "A" "Z" c || in_range "a" "z" c.

(** The bytes outside the application/x-www-form-urlencoded percent-encode
    set: the ASCII alphanumerics and [*], [-], [.], [_]. *)
Definition unescaped (c : ascii) : bool :=
  alphanumeric c
  || Ascii.eqb c "*" || Ascii.eqb c "-" || Ascii.eqb c "." || Ascii.eqb c "_".

(** Percent-encode after encoding, with a space written as a plus sign. *)
Definition encode_byte (c : ascii) : string :=
  if Ascii.eqb c " " then "+"
  else if unescaped c then String c ""
  else "%" ++ JS.hex_byte false c.

Fixpoint encode (s : string) : string :=
  match s with
  | EmptyString => ""
  | String c rest => encode_byte c ++ encode rest
  end.

(** The list of name-value pairs of a [URLSearchParams] object. *)
Definition URLSearchParams : Type := list (string * string).

Definition new_URLSearchParams : URLSearchParams := [].

Definition append (params : URLSearchParams) (name value : string)
  : URLSearchParams :=
  (params ++ [(name, value)])%list.

Definition pair_toString (p : string * string) : string :=
  encode (fst p) ++ "=" ++ encode (snd p).

Definition toString (params : URLSearchParams) : string :=
  JS.join "&" (map pair_toString params).

End URL.

(** ** fetch *)

Module Fetch.

Import JS.

Inductive Method : Type := GET | POST | PATCH | DELETE.

(** One call of [fetch(url, init)]; a call with no [init] is a GET with no
    headers and no body. *)
Record Request : Type := mkRequest {
  url : string;
  method : Method;
  headers : list (string * string);
  body : option string
}.

(** What the handler can observe of a response: its status, and what
    [response.json()] settles to (the parsed body, or the rejection when the
    body is not JSON). *)
Record Response : Type := mkResponse {
  status : Z;
  Response_json : Error + json
}.

(** [response.ok]: the status is in the range 200 to 299. *)
Definition Response_ok (response : Response) : bool :=
  Z.leb 200 (status response) && Z.leb (status response) 299.

(** The surroundings of one invocation. *)
Record Host : Type := mkHost {
  API_BASE : string;
  fetch : Request -> Error + Response;
  wording : fault -> string
}.

(** Computations of the handler: the requests issued so far, and either
    the thrown value or the result. *)
Definition M (A : Type) : Type := list Request * (Error + A).

Definition ret {A : Type} (a : A) : M A := ([], inr a).

Definition throw {A : Type} (e : Error) : M A := ([], inl e).

Definition bind {A B : Type} (m : M A) (k : A -> M B) : M B :=
  match m with
  | (log, inl e) => (log, inl e)
  | (log, inr a) => let (log', r) := k a in ((log ++ log')%list, r)
  end.

Definition lift {A : Type} (r : Error + A) : M A := ([], r).

(** [try { body } catch (error) { handler }]. *)
Definition try_catch {A : Type} (body : M A) (handler : Error -> M A) : M A :=
  match body with
  | (log, inl error) => let (log', r) := handler error in ((log ++ log')%list, r)
  | (log, inr a) => (log, inr a)
  end.

(** [await fetch(...)]. *)
Definition await_fetch (host : Host) (request : Request) : M Response :=
  ([request], fetch host request).

Definition requests {A : Type} (m : M A) : list Request := fst m.

Definition outcome {A : Type} (m : M A) : Error + A := snd m.

End Fetch.

Declare Scope js_scope.
Notation "x <- m ;; k" := (Fetch.bind m (fun x => k))
  (at level 61, m at next level, right associativity) : js_scope.

(** ** The tool catalogue: the ListToolsRequestSchema handler *)

Module Catalog.

Record Property : Type := mkProperty {
  property_type : string;
  property_description : string
}.

Record InputSchema : Type := mkInputSchema {
  type : string;
  properties : list (string * Property);
  required : list string
}.

Record Tool : Type := mkTool {
  name : string;
  description : string;
  inputSchema : InputSchema
}.

Record ListToolsResult : Type := mkListToolsResult { tools : list Tool }.

Definition add_task : Tool :=
  {| name := "add_task";
     description :=
       "Creates a new to-do item on the list. Requires the name parameter.";
     inputSchema :=
       {| type := "object";
          properties :=
            [ ("name",
               mkProperty "string" "The concise title of the task to be added.");
              ("description",
               mkProperty "string" "The brief summary of the task.") ];
          required := ["name"] |} |}.

Definition list_tasks : Tool :=
  {| name := "list_tasks";
     description :=
       "Retrieves tasks, allowing for filtering and sorting via PocketBase query syntax. Use 'filter' for specific criteria (e.g., pending tasks).";
     inputSchema :=
       {| type := "object";
          properties :=
            [ ("filter",
               mkProperty "string"
                 "PocketBase filter string to select specific records (e.g., (done=false) for pending tasks). Use parentheses for conditions.");
              ("sort",
               mkProperty "string"
                 "PocketBase sort string for ordering results (e.g., '-created' for newest first, 'name' for alphabetical).");
              ("page",
               mkProperty "integer"
                 "The page number for paginated results (defaults to 1).") ];
          required := [] |} |}.

Definition update_task : Tool :=
  {| name := "update_task";
     description :=
       "Updates the task identified by task_id. Allows changing name, description, done, or archived status.";
     inputSchema :=
       {| type := "object";
          properties :=
            [ ("task_id",
               mkProperty "string" "The ID of the task to be updated.");
              ("name", mkProperty "string" "The new title of the task.");
              ("description",
               mkProperty "string" "The new description of the task.");
              ("done",
               mkProperty "boolean" "A flag that indicates if the task is done.");
              ("archived",
               mkProperty "boolean"
                 "A flag that specifies if the task is archived.") ];
          required := ["task_id"] |} |}.

Definition delete_task : Tool :=
  {| name := "delete_task";
     description := "Removes a specific task from the list using its ID.";
     inputSchema :=
       {| type := "object";
          properties :=
            [ ("task_id",
               mkProperty "string" "The ID of the task to be deleted.") ];
          required := ["task_id"] |} |}.

(** [async () => { return { tools: [...] }; }] *)
Definition ListToolsRequest_handler : Fetch.M ListToolsResult :=
  Fetch.ret {| tools := [add_task; list_tasks; update_task; delete_task] |}.

End Catalog.

(** ** The tool dispatcher: the CallToolRequestSchema handler *)

Module Dispatcher.

Import JS Fetch.
Local Open Scope js_scope.

(** [request.params]. *)
Record CallToolRequest : Type := mkCall {
  name : string;
  arguments : option object
}.

Record TextContent : Type := mkContent { type : string; text : string }.

(** The result envelope; [isError] is [None] when the property is absent. *)
Record CallToolResult : Type := mkResult {
  content : list TextContent;
  isError : option bool
}.

Definition text_result (t : string) : CallToolResult :=
  {| content := [ {| type := "text"; text := t |} ]; isError := None |}.

Definition error_result (error : Error) : CallToolResult :=
  {| content := [ {| type := "text"; text := "Error: " ++ message error |} ];
     isError := Some true |}.

Definition json_headers : list (string * string) :=
  [("Content-Type", "application/json")].

Section Handler.

Variable host : Host.

(** [args.key]: [args] is [undefined] when the request carries no
    arguments, and the read then throws. *)
Definition get (args : option object) (key : string) : M value :=
  match args with
  | None => throw (TypeError (wording host) (ReadOfUndefined key))
  | Some o => ret (lookup key o)
  end.

(** [if (args.key) params.append(key, args.key);] *)
Definition append_if_truthy (args : option object) (key : string)
           (params : URL.URLSearchParams) : M URL.URLSearchParams :=
  v <- get args key ;;
  if truthy v
  then (s <- lift (ToString (wording host) v) ;; ret (URL.append params key s))
  else ret params.

(** [if (args.page) params.append("page", args.page.toString());] *)
Definition append_page (args : option object) (params : URL.URLSearchParams)
  : M URL.URLSearchParams :=
  page <- get args "page" ;;
  if truthy page
  then (s <- lift (call_toString (wording host) "args.page.toString" page) ;;
        ret (URL.append params "page" s))
  else ret params.

Definition add_task (args : option object) : M CallToolResult :=
  args_name <- get args "name" ;;
  args_description <- get args "description" ;;
  response <- await_fetch host
    {| url := API_BASE host;
       method := POST;
       headers := json_headers;
       body := Some (JSON_stringify_literal
                       [("name", args_name); ("description", args_description)]) |} ;;
  data <- lift (Response_json response) ;;
  ret (text_result (JSON_stringify_2 data)).

(** The three guarded appends on [new URLSearchParams()]. *)
Definition search_params (args : option object) : M URL.URLSearchParams :=
  let params := URL.new_URLSearchParams in
  params <- append_if_truthy args "filter" params ;;
  params <- append_if_truthy args "sort" params ;;
  append_page args params.

Definition list_tasks (args : option object) : M CallToolResult :=
  params <- search_params args ;;
  let url :=
    if String.eqb (URL.toString params) ""
    then API_BASE host
    else API_BASE host ++ "?" ++ URL.toString params in
  response <- await_fetch host
    {| url := url; method := GET; headers := []; body := None |} ;;
  data <- lift (Response_json response) ;;
  ret (text_result (JSON_stringify_2 data)).

(** [const { task_id, ...updateData } = args;] *)
Definition destructure (args : option object) : M (value * object) :=
  match args with
  | None => throw (TypeError (wording host) (DestructureOfUndefined "task_id"))
  | Some o => ret (lookup "task_id" o, without "task_id" o)
  end.

Definition update_task (args : option object) : M CallToolResult :=
  bound <- destructure args ;;
  let task_id := fst bound in
  let updateData := snd bound in
  id <- lift (ToString (wording host) task_id) ;;
  response <- await_fetch host
    {| url := API_BASE host ++ "/" ++ id;
       method := PATCH;
       headers := json_headers;
       body := Some (JSON_stringify (JObj updateData)) |} ;;
  data <- lift (Response_json response) ;;
  ret (text_result (JSON_stringify_2 data)).

Definition delete_task (args : option object) : M CallToolResult :=
  args_task_id <- get args "task_id" ;;
  id <- lift (ToString (wording host) args_task_id) ;;
  response <- await_fetch host
    {| url := API_BASE host ++ "/" ++ id;
       method := DELETE;
       headers := [];
       body := None |} ;;
  args_task_id <- get args "task_id" ;;
  id <- lift (ToString (wording host) args_task_id) ;;
  ret (text_result
         (if Response_ok response
          then "Task " ++ id ++ " deleted successfully"
          else "Failed to delete task " ++ id)).

(** The body of the [try] block: [switch (name) { ... }]. *)
Definition dispatch (request : CallToolRequest) : M CallToolResult :=
  let name := name request in
  let args := arguments request in
  if String.eqb name "add_task" then add_task args
  else if String.eqb name "list_tasks" then list_tasks args
  else if String.eqb name "update_task" then update_task args
  else if String.eqb name "delete_task" then delete_task args
  else throw (mkError "Error" ("Unknown tool: " ++ name)).

(** [async (request) => { ... try { ... } catch (error) { ... } }] *)
Definition CallToolRequest_handler (request : CallToolRequest)
  : M CallToolResult :=
  try_catch (dispatch request) (fun error => ret (error_result error)).

End Handler.

End Dispatcher.

(** ** Sample surroundings, for concrete runs *)

Module Scenario.

Import JS Fetch Dispatcher.

(** The wording Node gives its faults. *)
Definition node_wording (f : fault) : string :=
  match f with
  | ReadOfUndefined key =>
      "Cannot read properties of undefined (reading '" ++ key ++ "')"
  | ReadOfNull key =>
      "Cannot read properties of null (reading '" ++ key ++ "')"
  | DestructureOfUndefined key =>
      "Cannot destructure property '" ++ key ++ "' of 'args' as it is undefined."
  | NotAFunction callee => callee ++ " is not a function"
  | NoPrimitiveValue => "Cannot convert object to primitive value"
  end.

Definition base : string := "http://127.0.0.1:8090/api/collections/tasks/records".

(** A store that answers every request with the same status and body. *)
Definition store (status : Z) (body : Error + json) : Host :=
  {| API_BASE := base;
     fetch := fun _ => inr (mkResponse status body);
     wording := node_wording |}.

(** A store that cannot be reached. *)
Definition unreachable : Host :=
  {| API_BASE := base;
     fetch := fun _ => inl (mkError "TypeError" "fetch failed");
     wording := node_wording |}.

Definition record : json :=
  JObj [("id", JStr "abc123"); ("name", JStr "Buy milk"); ("done", JBool false)].

Definition not_found : json :=
  JObj [("code", JNum (mkNumber 404 eq_refl));
        ("message", JStr "The requested resource wasn't found.");
        ("data", JObj [])].

Definition not_json : Error :=
  mkError "SyntaxError" "Unexpected token < in JSON at position 0".

End Scenario.

(** ** What the branches are expected to do

    The requests and replies the properties below are stated with. *)

Import JS Fetch Dispatcher.

Section Outline.

Variable host : Host.

(** What the three branches that read the body make of the settled call. *)
Definition json_reply (request : Request) : Error + CallToolResult :=
  match fetch host request with
  | inl error => inl error
  | inr response =>
      match Response_json response with
      | inl error => inl error
      | inr data => inr (text_result (JSON_stringify_2 data))
      end
  end.

Definition post_request (o : object) : Request :=
  {| url := API_BASE host;
     method := POST;
     headers := json_headers;
     body := Some (JSON_stringify_literal
                     [("name", lookup "name" o);
                      ("description", lookup "description" o)]) |}.

Definition get_request (params : URL.URLSearchParams) : Request :=
  {| url := if String.eqb (URL.toString params) ""
            then API_BASE host
            else API_BASE host ++ "?" ++ URL.toString params;
     method := GET;
     headers := [];
     body := None |}.

Definition patch_request (id : string) (o : object) : Request :=
  {| url := API_BASE host ++ "/" ++ id;
     method := PATCH;
     headers := json_headers;
     body := Some (JSON_stringify (JObj (without "task_id" o))) |}.

Definition delete_request (id : string) : Request :=
  {| url := API_BASE host ++ "/" ++ id;
     method := DELETE;
     headers := [];
     body := None |}.

Definition delete_reply (id : string) : Error + CallToolResult :=
  match fetch host (delete_request id) with
  | inl error => inl error
  | inr response =>
      inr (text_result
             (if Response_ok response
              then "Task " ++ id ++ " deleted successfully"
              else "Failed to delete task " ++ id))
  end.

(** The pair a guarded append adds for one parameter: none when the value
    is falsy, the converted value under its name otherwise. *)
Definition entry (render : value -> Error + string) (key : string) (v : value)
  : Error + URL.URLSearchParams :=
  if truthy v
  then match render v with
       | inl error => inl error
       | inr s => inr [(key, s)]
       end
  else inr [].

Definition filter_entry : value -> Error + URL.URLSearchParams :=
  entry (ToString (wording host)) "filter".

Definition sort_entry : value -> Error + URL.URLSearchParams :=
  entry (ToString (wording host)) "sort".

Definition page_entry : value -> Error + URL.URLSearchParams :=
  entry (call_toString (wording host) "args.page.toString") "page".

(** The pairs of the query, from the values of the three parameters. *)
Definition entries (filter sort page : value) : Error + URL.URLSearchParams :=
  match filter_entry filter with
  | inl error => inl error
  | inr f =>
      match sort_entry sort with
      | inl error => inl error
      | inr s =>
          match page_entry page with
          | inl error => inl error
          | inr p => inr (f ++ s ++ p)%list
          end
      end
  end.

End Outline.

(** The pairs a parameter may contribute: none, or its own name with the
    conversion of the value supplied under that name. *)
Definition from_supplied (o : object) (key : string)
           (render : value -> Error + string)
           (pairs : URL.URLSearchParams) : Prop :=
  pairs = []
  \/ exists v s, lookup key o = Some v /\ render (Some v) = inr s
                 /\ pairs = [(key, s)].

(** The arguments of the examples. *)

Definition example_query : object :=
  [("filter", JStr "(done=false)"); ("sort", JStr "-created");
   ("page", JNum (mkNumber 2 eq_refl))].

Definition buy_milk : object := [("name", JStr "Buy milk")].

(** The text [{"name":"Buy milk"}]. *)
Definition buy_milk_body : string :=
  "{" ++ double_quote ++ "name" ++ double_quote ++ ":"
      ++ double_quote ++ "Buy milk" ++ double_quote ++ "}".

Definition mark_done : object := [("task_id", JStr "abc123"); ("done", JBool true)].

(** The text [{"done":true}]. *)
Definition mark_done_body : string :=
  "{" ++ double_quote ++ "done" ++ double_quote ++ ":true}".

(** The text [s] between double quotes. *)
Definition quoted (s : string) : string := double_quote ++ s ++ double_quote.

(** The lines of a text. *)
Definition lines (l : list string) : string := join newline l.

(** [Scenario.record], as [JSON.stringify(data, null, 2)] prints it. *)
Definition record_text : string :=
  lines
    [ "{";
      "  " ++ quoted "id" ++ ": " ++ quoted "abc123" ++ ",";
      "  " ++ quoted "name" ++ ": " ++ quoted "Buy milk" ++ ",";
      "  " ++ quoted "done" ++ ": false";
      "}" ].


(** A page of two records, one of them with a quotation mark in its
    name, as a store may answer list_tasks. *)
Definition listing : json :=
  JObj [("page", JNum (mkNumber 1 eq_refl));
        ("totalItems", JNum (mkNumber 2 eq_refl));
        ("items",
         JArr [JObj [("id", JStr "abc123"); ("name", JStr "Buy milk");
                     ("done", JBool false); ("tags", JArr [])];
               JObj [("id", JStr "def456");
                     ("name", JStr ("Say " ++ quoted "hi"));
                     ("done", JBool true);
                     ("tags", JArr [JStr "home"; JNull])]])].

(** [listing], printed likewise: each level of nesting indents by two more
    spaces, an empty array stays on its line, and the quotation marks
    inside a string are escaped. *)
Definition listing_text : string :=
  lines
    [ "{";
      "  " ++ quoted "page" ++ ": 1,";
      "  " ++ quoted "totalItems" ++ ": 2,";
      "  " ++ quoted "items" ++ ": [";
      "    {";
      "      " ++ quoted "id" ++ ": " ++ quoted "abc123" ++ ",";
      "      " ++ quoted "name" ++ ": " ++ quoted "Buy milk" ++ ",";
      "      " ++ quoted "done" ++ ": false,";
      "      " ++ quoted "tags" ++ ": []";
      "    },";
      "    {";
      "      " ++ quoted "id" ++ ": " ++ quoted "def456" ++ ",";
      "      " ++ quoted "name" ++ ": "
               ++ quoted ("Say \" ++ double_quote ++ "hi\" ++ double_quote) ++ ",";
      "      " ++ quoted "done" ++ ": true,";
      "      " ++ quoted "tags" ++ ": [";
      "        " ++ quoted "home" ++ ",";
      "        null";
      "      ]";
      "    }";
      "  ]";
      "}" ].

Definition all_falsy : object :=
  [("filter", JStr ""); ("sort", JStr ""); ("page", JNum (mkNumber 0 eq_refl))].

(** ** Start-up *)

Module Startup.

Definition missing_API_BASE : Error :=
  mkError "Error" "API_BASE environment variable is required".

(** [const API_BASE = process.env.API_BASE; if (!API_BASE) { throw ... }]:
    a variable of the environment is a string or [undefined]. *)
Definition load_API_BASE (env_API_BASE : option string) : Error + string :=
  match env_API_BASE with
  | Some s => if truthy (Some (JStr s)) then inr s else inl missing_API_BASE
  | None => inl missing_API_BASE
  end.

End Startup.

(** ** Reading a query back

    The application/x-www-form-urlencoded parser of the URL Standard, the
    inverse the store applies to the query string it receives. *)

Module Form.

Definition hex_value (c : ascii) : option N :=
  let n := N_of_ascii c in
  if URL.in_range "0" "9" c then Some (n - N_of_ascii "0")%N
  else if URL.in_range "A" "F" c then Some (n - N_of_ascii "A" + 10)%N
  else if URL.in_range "a" "f" c then Some (n - N_of_ascii "a" + 10)%N
  else None.

(** A plus sign back to a space, then percent-decode: a percent sign
    that two hexadecimal digits follow stands for their byte. *)
Fixpoint decode (s : string) : string :=
  match s with
  | EmptyString => EmptyString
  | String c tail =>
      if Ascii.eqb c "+" then String " " (decode tail)
      else if Ascii.eqb c "%" then
        match tail with
        | String h (String l rest) =>
            match hex_value h, hex_value l with
            | Some a, Some b => String (ascii_of_N (16 * a + b)) (decode rest)
            | _, _ => String c (decode tail)
            end
        | _ => String c (decode tail)
        end
      else String c (decode tail)
  end.

(** The pieces of [s] between the occurrences of [sep]. *)
Fixpoint split_on (sep : ascii) (s : string) : list string :=
  match s with
  | EmptyString => [EmptyString]
  | String c rest =>
      if Ascii.eqb c sep then EmptyString :: split_on sep rest
      else match split_on sep rest with
           | [] => [String c EmptyString]
           | piece :: more => String c piece :: more
           end
  end.

(** The text before the first [sep] and the text after it (empty when
    there is none). *)
Fixpoint break_at (sep : ascii) (s : string) : string * string :=
  match s with
  | EmptyString => (EmptyString, EmptyString)
  | String c rest =>
      if Ascii.eqb c sep then (EmptyString, rest)
      else let (before, after) := break_at sep rest in (String c before, after)
  end.

Definition parse_pair (piece : string) : string * string :=
  let (name, value) := break_at "=" piece in (decode name, decode value).

Definition nonempty (s : string) : bool := negb (String.eqb s "").

Definition parse (query : string) : list (string * string) :=
  map parse_pair (filter nonempty (split_on "&" query)).

End Form.

(** ** Vocabulary of the further properties *)

Fixpoint forall_chars (p : ascii -> bool) (s : string) : bool :=
  match s with
  | EmptyString => true
  | String c rest => p c && forall_chars p rest
  end.

(** The characters the serializer of a query writes. *)
Definition escaped_char (c : ascii) : bool :=
  URL.unescaped c || Ascii.eqb c "+" || Ascii.eqb c "%".

Definition query_char (c : ascii) : bool :=
  escaped_char c || Ascii.eqb c "=" || Ascii.eqb c "&".

(** The texts in which [sep] does not occur. *)
Definition free_of (sep : ascii) (s : string) : bool :=
  forall_chars (fun c => negb (Ascii.eqb c sep)) s.

(** No control character: no byte below 32. *)
Definition printable (c : ascii) : bool := N.leb 32 (N_of_ascii c).

(** The values that have a conversion to a string: all but an object with
    a [toString] property of its own, alone or inside arrays. *)
Fixpoint convertible (v : json) : bool :=
  match v with
  | JArr elements =>
      (fix each (l : list json) : bool :=
         match l with
         | [] => true
         | e :: rest => convertible e && each rest
         end) elements
  | JObj properties => negb (has_own "toString" properties)
  | _ => true
  end.

(** The conversion of one element of an array, as [join] applies it. *)
Definition element (wording : fault -> string) (e : json) : Error + string :=
  match e with
  | JNull => inr ""
  | _ => ToString_json wording e
  end.

(** A value is converted when it is convertible, and the conversion throws
    the engine's fault otherwise. *)
Definition converts (wording : fault -> string) (v : json) : Prop :=
  (convertible v = true -> exists s, ToString_json wording v = inr s)
  /\ (convertible v = false ->
      ToString_json wording v = inl (TypeError wording NoPrimitiveValue)).

Definition convertible_value (v : value) : bool :=
  match v with
  | None => true
  | Some j => convertible j
  end.

(** The tools the catalogue lists. *)
Definition catalogue : list Catalog.Tool :=
  match outcome Catalog.ListToolsRequest_handler with
  | inr result => Catalog.tools result
  | inl _ => []
  end.

(** The parameters a tool declares. *)
Definition declared (tool : Catalog.Tool) : list string :=
  map fst (Catalog.properties (Catalog.inputSchema tool)).

(** Two bags that hold the same value, or none, under each of [keys]. *)
Definition agree (keys : list string) (o o' : object) : Prop :=
  forall key, In key keys -> lookup key o = lookup key o'.

(** ** Properties *)

Arguments JSON_stringify : simpl never.
Arguments JSON_stringify_2 : simpl never.
Arguments JSON_stringify_literal : simpl never.
Arguments ToString : simpl never.
Arguments call_toString : simpl never.
Arguments URL.toString : simpl never.
Arguments String.eqb : simpl never.
Arguments append : simpl never.

(** *** Objects *)

Section Objects.

Variable key : string.

Lemma lookup_without_same (o : object) : lookup key (without key o) = None.
Proof.
  induction o as [|[k v] rest IH]; simpl; [reflexivity|].
  destruct (String.eqb k key) eqn:E; simpl; [assumption|].
  rewrite E. assumption.
Qed.

Lemma lookup_without_other (other : string) (o : object) :
  other <> key -> lookup other (without key o) = lookup other o.
Proof.
  intros Hne. induction o as [|[k v] rest IH]; simpl; [reflexivity|].
  destruct (String.eqb k key) eqn:E; simpl.
  - apply String.eqb_eq in E. subst k.
    destruct (String.eqb key other) eqn:E'; [|assumption].
    apply String.eqb_eq in E'. congruence.
  - rewrite IH. reflexivity.
Qed.

Lemma without_absent (o : object) : lookup key o = None -> without key o = o.
Proof.
  induction o as [|[k v] rest IH]; simpl; [reflexivity|].
  destruct (String.eqb k key); [discriminate|].
  intros H. rewrite (IH H). reflexivity.
Qed.

(** [without] keeps the other properties as they are, in their order. *)
Lemma without_filter (o : object) :
  without key o = filter (fun p => negb (String.eqb (fst p) key)) o.
Proof.
  induction o as [|[k v] rest IH]; simpl; [reflexivity|].
  destruct (String.eqb k key); simpl; rewrite IH; reflexivity.
Qed.

End Objects.

(** *** The computation of each branch *)

Section Runs.

Variable host : Host.

Lemma add_task_run (o : object) :
  add_task host (Some o) = ([post_request host o], json_reply host (post_request host o)).
Proof.
  unfold add_task, json_reply, await_fetch, get, lift, ret, bind. simpl.
  fold (post_request host o).
  destruct (fetch host (post_request host o)) as [e|response]; [reflexivity|].
  destruct (Response_json response); reflexivity.
Qed.

Lemma update_task_run (o : object) (id : string) :
  ToString (wording host) (lookup "task_id" o) = inr id ->
  update_task host (Some o) =
    ([patch_request host id o], json_reply host (patch_request host id o)).
Proof.
  intros H.
  unfold update_task, destructure, json_reply, await_fetch, lift, ret, bind.
  simpl. rewrite H. fold (patch_request host id o).
  destruct (fetch host (patch_request host id o)) as [e|response]; [reflexivity|].
  destruct (Response_json response); reflexivity.
Qed.

Lemma update_task_throws (o : object) (error : Error) :
  ToString (wording host) (lookup "task_id" o) = inl error ->
  update_task host (Some o) = ([], inl error).
Proof.
  intros H. unfold update_task, destructure, lift, ret, bind.
  simpl. rewrite H. reflexivity.
Qed.

Lemma delete_task_run (o : object) (id : string) :
  ToString (wording host) (lookup "task_id" o) = inr id ->
  delete_task host (Some o) = ([delete_request host id], delete_reply host id).
Proof.
  intros H.
  unfold delete_task, delete_reply, await_fetch, get, lift, ret, bind.
  simpl. rewrite H. fold (delete_request host id).
  destruct (fetch host (delete_request host id)) as [e|response]; reflexivity.
Qed.

Lemma delete_task_throws (o : object) (error : Error) :
  ToString (wording host) (lookup "task_id" o) = inl error ->
  delete_task host (Some o) = ([], inl error).
Proof.
  intros H. unfold delete_task, get, lift, ret, bind.
  simpl. rewrite H. reflexivity.
Qed.

Lemma search_params_run (o : object) :
  search_params host (Some o) =
    ([], entries host (lookup "filter" o) (lookup "sort" o) (lookup "page" o)).
Proof.
  unfold search_params, append_if_truthy, append_page, entries, filter_entry,
    sort_entry, page_entry, entry, get, lift, ret, bind, URL.append,
    URL.new_URLSearchParams.
  simpl.
  destruct (truthy (lookup "filter" o)); simpl;
    [destruct (ToString (wording host) (lookup "filter" o)); simpl;
     [reflexivity|]|];
    (destruct (truthy (lookup "sort" o)); simpl;
     [destruct (ToString (wording host) (lookup "sort" o)); simpl;
      [reflexivity|]|]);
    (destruct (truthy (lookup "page" o)); simpl;
     [destruct (call_toString (wording host) "args.page.toString"
                  (lookup "page" o)); simpl|]);
    reflexivity.
Qed.

Lemma list_tasks_run (o : object) (params : URL.URLSearchParams) :
  entries host (lookup "filter" o) (lookup "sort" o) (lookup "page" o) = inr params ->
  list_tasks host (Some o) =
    ([get_request host params], json_reply host (get_request host params)).
Proof.
  intros H. unfold list_tasks. rewrite search_params_run, H.
  unfold json_reply, await_fetch, lift, ret, bind. simpl.
  fold (get_request host params).
  destruct (fetch host (get_request host params)) as [e|response]; [reflexivity|].
  destruct (Response_json response); reflexivity.
Qed.

Lemma list_tasks_throws (o : object) (error : Error) :
  entries host (lookup "filter" o) (lookup "sort" o) (lookup "page" o) = inl error ->
  list_tasks host (Some o) = ([], inl error).
Proof.
  intros H. unfold list_tasks. rewrite search_params_run, H. reflexivity.
Qed.

(** With no argument bag every branch throws at its first read of [args]. *)
Lemma no_arguments_no_request (name : string) :
  requests (dispatch host (mkCall name None)) = [].
Proof.
  unfold dispatch; simpl.
  repeat match goal with
         | |- context [if ?b then _ else _] => destruct b
         end; reflexivity.
Qed.

(** Every branch issues at most one request. *)
Lemma at_most_one_request (request : CallToolRequest) :
  requests (dispatch host request) = []
  \/ exists rq, requests (dispatch host request) = [rq].
Proof.
  destruct request as [name [o|]]; [|left; apply no_arguments_no_request].
  unfold dispatch; simpl.
  destruct (String.eqb name "add_task");
    [rewrite add_task_run; right; eexists; reflexivity|].
  destruct (String.eqb name "list_tasks").
  { destruct (entries host (lookup "filter" o) (lookup "sort" o) (lookup "page" o))
      as [e|params] eqn:E.
    - rewrite (list_tasks_throws _ _ E). left; reflexivity.
    - rewrite (list_tasks_run _ _ E). right; eexists; reflexivity. }
  destruct (String.eqb name "update_task").
  { destruct (ToString (wording host) (lookup "task_id" o)) as [e|id] eqn:E.
    - rewrite (update_task_throws _ _ E). left; reflexivity.
    - rewrite (update_task_run _ _ E). right; eexists; reflexivity. }
  destruct (String.eqb name "delete_task").
  { destruct (ToString (wording host) (lookup "task_id" o)) as [e|id] eqn:E.
    - rewrite (delete_task_throws _ _ E). left; reflexivity.
    - rewrite (delete_task_run _ _ E). right; eexists; reflexivity. }
  left; reflexivity.
Qed.

(** The handler issues the requests of the [try] block and no other. *)
Lemma handler_requests (request : CallToolRequest) :
  requests (CallToolRequest_handler host request) =
    requests (dispatch host request).
Proof.
  unfold CallToolRequest_handler, try_catch, requests.
  destruct (dispatch host request) as [log [e|r]]; simpl; [|reflexivity].
  apply app_nil_r.
Qed.

Lemma handler_outcome (request : CallToolRequest) :
  outcome (CallToolRequest_handler host request) =
    match outcome (dispatch host request) with
    | inl error => inr (error_result error)
    | inr result => inr result
    end.
Proof.
  unfold CallToolRequest_handler, try_catch, outcome.
  destruct (dispatch host request) as [log [e|r]]; reflexivity.
Qed.

End Runs.

(** *** The switch *)

Section Switch.

Variable host : Host.

Lemma dispatch_add_task (args : option object) :
  dispatch host (mkCall "add_task" args) = add_task host args.
Proof. reflexivity. Qed.

Lemma dispatch_list_tasks (args : option object) :
  dispatch host (mkCall "list_tasks" args) = list_tasks host args.
Proof. reflexivity. Qed.

Lemma dispatch_update_task (args : option object) :
  dispatch host (mkCall "update_task" args) = update_task host args.
Proof. reflexivity. Qed.

Lemma dispatch_delete_task (args : option object) :
  dispatch host (mkCall "delete_task" args) = delete_task host args.
Proof. reflexivity. Qed.

Lemma dispatch_unknown (request : CallToolRequest) :
  name request <> "add_task" -> name request <> "list_tasks" ->
  name request <> "update_task" -> name request <> "delete_task" ->
  dispatch host request =
    ([], inl (mkError "Error" ("Unknown tool: " ++ name request))).
Proof.
  intros Ha Hl Hu Hd. unfold dispatch.
  apply String.eqb_neq in Ha, Hl, Hu, Hd.
  rewrite Ha, Hl, Hu, Hd. reflexivity.
Qed.

(** The four names, as the switch tells them apart. *)
Lemma switch_cases (n : string) :
  n = "add_task" \/ n = "list_tasks" \/ n = "update_task" \/ n = "delete_task"
  \/ (n <> "add_task" /\ n <> "list_tasks" /\ n <> "update_task"
      /\ n <> "delete_task").
Proof.
  destruct (String.eqb_spec n "add_task"); [tauto|].
  destruct (String.eqb_spec n "list_tasks"); [tauto|].
  destruct (String.eqb_spec n "update_task"); [tauto|].
  destruct (String.eqb_spec n "delete_task"); tauto.
Qed.

(** Once a request has been issued, the outcome of the [try] block is
    what the branch makes of the settled call. *)
Lemma dispatch_after_request (request : CallToolRequest) (rq : Request) :
  requests (dispatch host request) = [rq] ->
  (name request = "delete_task" /\
   exists id, rq = delete_request host id /\
              outcome (dispatch host request) = delete_reply host id)
  \/ ((name request = "add_task" \/ name request = "list_tasks"
       \/ name request = "update_task") /\
      outcome (dispatch host request) = json_reply host rq).
Proof.
  destruct request as [n [o|]];
    [|rewrite no_arguments_no_request; discriminate].
  destruct (switch_cases n) as [->|[->|[->|[->|(Ha & Hl & Hu & Hd)]]]].
  - rewrite dispatch_add_task, add_task_run. simpl.
    intros [= <-]. right. split; [tauto|reflexivity].
  - rewrite dispatch_list_tasks.
    destruct (entries host (lookup "filter" o) (lookup "sort" o)
                (lookup "page" o)) as [e|params] eqn:E.
    + rewrite (list_tasks_throws _ _ _ E). discriminate.
    + rewrite (list_tasks_run _ _ _ E). simpl.
      intros [= <-]. right. split; [tauto|reflexivity].
  - rewrite dispatch_update_task.
    destruct (ToString (wording host) (lookup "task_id" o)) as [e|id] eqn:E.
    + rewrite (update_task_throws _ _ _ E). discriminate.
    + rewrite (update_task_run _ _ _ E). simpl.
      intros [= <-]. right. split; [tauto|reflexivity].
  - rewrite dispatch_delete_task.
    destruct (ToString (wording host) (lookup "task_id" o)) as [e|id] eqn:E.
    + rewrite (delete_task_throws _ _ _ E). discriminate.
    + rewrite (delete_task_run _ _ _ E). simpl.
      intros [= <-]. left. split; [reflexivity|].
      exists id. split; reflexivity.
  - rewrite dispatch_unknown by assumption. discriminate.
Qed.

End Switch.

(** ** The claims *)

(** C1. Every invocation of the call-tool handler returns a result
    envelope and throws nothing.  Whatever the [try] block throws is
    turned into the envelope with the single text [Error: <message>] and
    the error flag set to true; the block throws when the network call
    is rejected, when the body of the response is not JSON (in the three
    branches that read it), and when the tool name is not known. *)
Theorem handler_returns_an_envelope (host : Host) (request : CallToolRequest) :
  (exists result,
     outcome (CallToolRequest_handler host request) = inr result) /\
  (forall error,
     outcome (dispatch host request) = inl error ->
     outcome (CallToolRequest_handler host request) =
       inr {| content :=
                [ {| type := "text"; text := "Error: " ++ message error |} ];
              isError := Some true |}) /\
  (forall rq error,
     requests (dispatch host request) = [rq] ->
     fetch host rq = inl error ->
     outcome (dispatch host request) = inl error) /\
  (forall rq response error,
     name request <> "delete_task" ->
     requests (dispatch host request) = [rq] ->
     fetch host rq = inr response ->
     Response_json response = inl error ->
     outcome (dispatch host request) = inl error) /\
  (name request <> "add_task" -> name request <> "list_tasks" ->
   name request <> "update_task" -> name request <> "delete_task" ->
   outcome (dispatch host request) =
     inl (mkError "Error" ("Unknown tool: " ++ name request))).
Proof.
  repeat split.
  - rewrite handler_outcome.
    destruct (outcome (dispatch host request)); eexists; reflexivity.
  - intros error H. rewrite handler_outcome, H. reflexivity.
  - intros rq error Hrq Hfetch.
    destruct (dispatch_after_request host request rq Hrq)
      as [(_ & id & -> & ->)|(_ & ->)].
    + unfold delete_reply. rewrite Hfetch. reflexivity.
    + unfold json_reply. rewrite Hfetch. reflexivity.
  - intros rq response error Hname Hrq Hfetch Hjson.
    destruct (dispatch_after_request host request rq Hrq)
      as [(Hd & _)|(_ & ->)]; [contradiction|].
    unfold json_reply. rewrite Hfetch, Hjson. reflexivity.
  - intros Ha Hl Hu Hd. rewrite dispatch_unknown by assumption. reflexivity.
Qed.

(** A store that cannot be reached, a store whose answer is not JSON,
    and a tool that does not exist. *)
Lemma handler_returns_an_envelope_witness :
  outcome (CallToolRequest_handler Scenario.unreachable
             (mkCall "add_task" (Some buy_milk))) =
    inr {| content := [ {| type := "text"; text := "Error: fetch failed" |} ];
           isError := Some true |}
  /\ outcome (dispatch (Scenario.store 200 (inl Scenario.not_json))
                (mkCall "add_task" (Some buy_milk))) =
       inl Scenario.not_json
  /\ outcome (dispatch Scenario.unreachable (mkCall "frobnicate" None)) =
       inl (mkError "Error" "Unknown tool: frobnicate").
Proof.
  split; [|split].
  - apply (proj1 (proj2 (handler_returns_an_envelope Scenario.unreachable
             (mkCall "add_task" (Some buy_milk))))
             (mkError "TypeError" "fetch failed")).
    apply (proj1 (proj2 (proj2 (handler_returns_an_envelope Scenario.unreachable
             (mkCall "add_task" (Some buy_milk)))))
             (post_request Scenario.unreachable buy_milk));
      reflexivity.
  - apply (proj1 (proj2 (proj2 (proj2 (handler_returns_an_envelope
             (Scenario.store 200 (inl Scenario.not_json))
             (mkCall "add_task" (Some buy_milk))))))
             (post_request (Scenario.store 200 (inl Scenario.not_json)) buy_milk)
             (mkResponse 200 (inl Scenario.not_json)));
      [discriminate | reflexivity | reflexivity | reflexivity].
  - apply (proj2 (proj2 (proj2 (proj2 (handler_returns_an_envelope
             Scenario.unreachable (mkCall "frobnicate" None))))));
      discriminate.
Defined.

(** C2. Listing the tools takes no input, issues no request and cannot
    fail; it returns four descriptors, in the order add_task, list_tasks,
    update_task, delete_task, whose required fields are [name], none,
    [task_id] and [task_id]. *)
Theorem list_tools_catalogue :
  exists result,
    Catalog.ListToolsRequest_handler = ([], inr result) /\
    length (Catalog.tools result) = 4 /\
    map Catalog.name (Catalog.tools result) =
      ["add_task"; "list_tasks"; "update_task"; "delete_task"] /\
    map (fun tool => Catalog.required (Catalog.inputSchema tool))
        (Catalog.tools result) =
      [["name"]; []; ["task_id"]; ["task_id"]].
Proof.
  eexists. repeat split.
Qed.

(** C3. An invocation whose tool name is none of the four registered
    names issues no request and returns, without throwing, the envelope
    flagged as an error whose only text is [Error: Unknown tool: <name>]. *)
Theorem unknown_tool_envelope (host : Host) (request : CallToolRequest) :
  name request <> "add_task" -> name request <> "list_tasks" ->
  name request <> "update_task" -> name request <> "delete_task" ->
  CallToolRequest_handler host request =
    ([], inr {| content :=
                  [ {| type := "text";
                       text := "Error: Unknown tool: " ++ name request |} ];
                isError := Some true |}).
Proof.
  intros Ha Hl Hu Hd. unfold CallToolRequest_handler.
  rewrite dispatch_unknown by assumption. reflexivity.
Qed.

Lemma unknown_tool_envelope_witness :
  CallToolRequest_handler Scenario.unreachable
    (mkCall "frobnicate" (Some [("task_id", JStr "abc123")])) =
    ([], inr {| content :=
                  [ {| type := "text";
                       text := "Error: Unknown tool: frobnicate" |} ];
                isError := Some true |}).
Proof.
  apply (unknown_tool_envelope Scenario.unreachable
           (mkCall "frobnicate" (Some [("task_id", JStr "abc123")])));
    discriminate.
Defined.

(** *** The query of list_tasks *)

Lemma entry_from_supplied (o : object) (key : string)
      (render : value -> Error + string) (pairs : URL.URLSearchParams) :
  entry render key (lookup key o) = inr pairs ->
  from_supplied o key render pairs.
Proof.
  unfold entry, from_supplied. intros H.
  destruct (lookup key o) as [v|] eqn:L.
  - destruct (truthy (Some v)); [|left; congruence].
    destruct (render (Some v)) as [e|s] eqn:R; [discriminate|].
    right. exists v, s. repeat split; congruence.
  - simpl in H. left. congruence.
Qed.

Lemma entries_inv (host : Host) (filter sort page : value)
      (params : URL.URLSearchParams) :
  entries host filter sort page = inr params ->
  exists f s p,
    filter_entry host filter = inr f /\ sort_entry host sort = inr s
    /\ page_entry host page = inr p /\ params = (f ++ s ++ p)%list.
Proof.
  unfold entries. intros H.
  destruct (filter_entry host filter) as [e|f]; [discriminate|].
  destruct (sort_entry host sort) as [e|s]; [discriminate|].
  destruct (page_entry host page) as [e|p]; [discriminate|].
  exists f, s, p. repeat split; congruence.
Qed.

(** The numeral of a Number, read as a decimal integer, is its value. *)
Lemma Number_toString_reads_back (n : Number) :
  option_map Z.of_int (NilZero.int_of_string (Number_toString n)) =
    Some (integer n).
Proof.
  unfold Number_toString. rewrite NilZero.isi.
  - simpl. rewrite DecimalZ.of_to. reflexivity.
  - destruct (integer n); simpl; try discriminate.
    intros [= H]. revert H. apply Unsigned.to_uint_nonnil.
  - destruct (integer n); simpl; try discriminate.
    intros [= H]. revert H. apply Unsigned.to_uint_nonnil.
Qed.

(** The requests of a list_tasks invocation. *)
Lemma list_tasks_requests (host : Host) (args : option object) (rq : Request) :
  In rq (requests (CallToolRequest_handler host (mkCall "list_tasks" args))) ->
  exists o params,
    args = Some o
    /\ entries host (lookup "filter" o) (lookup "sort" o) (lookup "page" o)
       = inr params
    /\ rq = get_request host params
    /\ requests (CallToolRequest_handler host (mkCall "list_tasks" args)) = [rq].
Proof.
  rewrite handler_requests, dispatch_list_tasks.
  destruct args as [o|]; [|intros []].
  destruct (entries host (lookup "filter" o) (lookup "sort" o)
              (lookup "page" o)) as [e|params] eqn:E.
  - rewrite (list_tasks_throws _ _ _ E). intros [].
  - rewrite (list_tasks_run _ _ _ E). simpl.
    intros [<-|[]]. exists o, params.
    split; [reflexivity|]. split; [exact E|]. split; reflexivity.
Qed.

(** C4, the claim as stated fails: for the arguments
    {filter: (done=false), sort: -created, page: 2} the request issued is
    not the GET of the base address followed by
    [?filter=(done%3Dfalse)&sort=-created&page=2]. *)
Lemma list_tasks_example_query_differs :
  requests (CallToolRequest_handler (Scenario.store 200 (inr Scenario.record))
              (mkCall "list_tasks" (Some example_query)))
  <> [ {| url := Scenario.base ++ "?"
                   ++ "filter=(done%3Dfalse)&sort=-created&page=2";
          method := GET; headers := []; body := None |} ].
Proof.
  vm_compute. intros H. discriminate H.
Qed.

(** C4, amended. Every request a list_tasks invocation issues is a GET
    with no headers and no body, and it is the only one.  Its URL is the
    base address when the query string is empty, and the base address, a
    question mark and the query string otherwise; the query string is the
    form-urlencoded serialization of the pairs appended for filter, sort
    and page, in that order, each parameter contributing either nothing
    or its own name with the conversion of the value supplied for it.  A
    non-empty string given as filter or sort is appended as it is, a
    page that is a non-zero safe integer as its decimal numeral (the text
    that reads back, as a decimal integer, as that number).  When none of
    the three is supplied the URL is the bare base address.  For the
    arguments {filter: (done=false), sort: -created, page: 2} the query
    string is [filter=%28done%3Dfalse%29&sort=-created&page=2]: the
    serializer escapes the parentheses as well as the equals sign. *)
Theorem list_tasks_query (host : Host) (args : option object) :
  (forall rq,
     In rq (requests (CallToolRequest_handler host (mkCall "list_tasks" args))) ->
     exists o f s p,
       args = Some o /\
       requests (CallToolRequest_handler host (mkCall "list_tasks" args)) = [rq] /\
       method rq = GET /\ headers rq = [] /\ body rq = None /\
       url rq =
         (if String.eqb (URL.toString (f ++ s ++ p)%list) ""
          then API_BASE host
          else API_BASE host ++ "?" ++ URL.toString (f ++ s ++ p)%list) /\
       from_supplied o "filter" (ToString (wording host)) f /\
       from_supplied o "sort" (ToString (wording host)) s /\
       from_supplied o "page"
         (call_toString (wording host) "args.page.toString") p /\
       (forall t, lookup "filter" o = Some (JStr t) -> t <> "" ->
                  f = [("filter", t)]) /\
       (forall t, lookup "sort" o = Some (JStr t) -> t <> "" ->
                  s = [("sort", t)]) /\
       (forall n, lookup "page" o = Some (JNum n) -> integer n <> 0%Z ->
                  p = [("page", Number_toString n)] /\
                  option_map Z.of_int
                    (NilZero.int_of_string (Number_toString n)) =
                    Some (integer n)) /\
       (lookup "filter" o = None -> lookup "sort" o = None ->
        lookup "page" o = None -> url rq = API_BASE host)) /\
  requests (CallToolRequest_handler host
              (mkCall "list_tasks" (Some example_query))) =
    [ {| url := API_BASE host ++ "?"
                  ++ "filter=%28done%3Dfalse%29&sort=-created&page=2";
         method := GET; headers := []; body := None |} ].
Proof.
  split;
    [|rewrite handler_requests, dispatch_list_tasks;
      rewrite (list_tasks_run host example_query
                 [("filter", "(done=false)"); ("sort", "-created");
                  ("page", "2")] eq_refl);
      reflexivity].
  intros rq Hin.
  destruct (list_tasks_requests host args rq Hin) as (o & params & -> & E & -> & Hone).
  destruct (entries_inv host _ _ _ _ E) as (f & s & p & Hf & Hs & Hp & ->).
  exists o, f, s, p.
  split; [reflexivity|]. split; [exact Hone|].
  split; [reflexivity|]. split; [reflexivity|]. split; [reflexivity|].
  split; [reflexivity|].
  split; [apply entry_from_supplied; exact Hf|].
  split; [apply entry_from_supplied; exact Hs|].
  split; [apply entry_from_supplied; exact Hp|].
  split.
  { intros t L Ht. unfold filter_entry, entry in Hf. rewrite L in Hf.
    simpl in Hf. apply String.eqb_neq in Ht. rewrite Ht in Hf. simpl in Hf.
    unfold ToString in Hf. simpl in Hf. congruence. }
  split.
  { intros t L Ht. unfold sort_entry, entry in Hs. rewrite L in Hs.
    simpl in Hs. apply String.eqb_neq in Ht. rewrite Ht in Hs. simpl in Hs.
    unfold ToString in Hs. simpl in Hs. congruence. }
  split.
  { intros z L Hz. split; [|apply Number_toString_reads_back].
    unfold page_entry, entry in Hp. rewrite L in Hp.
    simpl in Hp. apply Z.eqb_neq in Hz. rewrite Hz in Hp. simpl in Hp.
    unfold call_toString in Hp. simpl in Hp. congruence. }
  intros Lf Ls Lp.
  unfold filter_entry, entry in Hf. rewrite Lf in Hf.
  unfold sort_entry, entry in Hs. rewrite Ls in Hs.
  unfold page_entry, entry in Hp. rewrite Lp in Hp.
  simpl in Hf, Hs, Hp.
  injection Hf as <-. injection Hs as <-. injection Hp as <-.
  reflexivity.
Qed.

(** The example of C4 and an empty bag, on a store that answers. *)
Lemma list_tasks_query_witness :
  (exists f s p,
     requests (CallToolRequest_handler (Scenario.store 200 (inr Scenario.record))
                 (mkCall "list_tasks" (Some example_query))) =
       [get_request (Scenario.store 200 (inr Scenario.record))
          (f ++ s ++ p)%list] /\
     f = [("filter", "(done=false)")] /\ s = [("sort", "-created")] /\
     p = [("page", "2")])
  /\ url (get_request (Scenario.store 200 (inr Scenario.record)) []) =
       Scenario.base.
Proof.
  split.
  - assert (Hin : In (get_request (Scenario.store 200 (inr Scenario.record))
                        [("filter", "(done=false)"); ("sort", "-created");
                         ("page", "2")])
                     (requests (CallToolRequest_handler
                                  (Scenario.store 200 (inr Scenario.record))
                                  (mkCall "list_tasks" (Some example_query)))))
      by (left; reflexivity).
    destruct (proj1 (list_tasks_query (Scenario.store 200 (inr Scenario.record))
                       (Some example_query)) _ Hin)
      as (o & f & s & p & Ho & Hone & _ & _ & _ & _ & _ & _ & _
          & Hf & Hs & Hp & _).
    injection Ho as <-.
    assert (Ef : f = [("filter", "(done=false)")])
      by (apply (Hf "(done=false)"); [reflexivity|discriminate]).
    assert (Es : s = [("sort", "-created")])
      by (apply (Hs "-created"); [reflexivity|discriminate]).
    assert (Ep : p = [("page", "2")])
      by (apply (Hp (mkNumber 2 eq_refl)); [reflexivity|discriminate]).
    exists f, s, p. rewrite Hone, Ef, Es, Ep.
    repeat split; reflexivity.
  - assert (Hin : In (get_request (Scenario.store 200 (inr Scenario.record)) [])
                     (requests (CallToolRequest_handler
                                  (Scenario.store 200 (inr Scenario.record))
                                  (mkCall "list_tasks" (Some [])))))
      by (left; reflexivity).
    destruct (proj1 (list_tasks_query (Scenario.store 200 (inr Scenario.record))
                       (Some [])) _ Hin)
      as (o & f & s & p & Ho & _ & _ & _ & _ & _ & _ & _ & _ & _ & _ & _ & Hbare).
    injection Ho as <-.
    exact (Hbare eq_refl eq_refl eq_refl).
Defined.

(** *** add_task *)

(** C5. An add_task invocation with the arguments {name: Buy milk}
    issues exactly one request: a POST to the base address whose body is
    the serialization of the object {name: Buy milk, description:
    undefined}, the missing description being passed to the serializer as
    it is (which then writes the name alone).  When the store answers with
    a body that parses as JSON, the envelope returned is not flagged as an
    error and its only text is that body printed with an indentation of
    two spaces: one member to a line, each nested level two spaces
    deeper, as the texts of the sample record and of the sample page
    show. *)
Theorem add_task_buy_milk (host : Host) :
  requests (CallToolRequest_handler host (mkCall "add_task" (Some buy_milk))) =
    [ {| url := API_BASE host;
         method := POST;
         headers := [("Content-Type", "application/json")];
         body := Some (JSON_stringify_literal
                         [("name", Some (JStr "Buy milk"));
                          ("description", undefined)]) |} ] /\
  JSON_stringify_literal
    [("name", Some (JStr "Buy milk")); ("description", undefined)] =
    buy_milk_body /\
  (forall response data,
     fetch host (post_request host buy_milk) = inr response ->
     Response_json response = inr data ->
     outcome (CallToolRequest_handler host (mkCall "add_task" (Some buy_milk))) =
       inr {| content :=
                [ {| type := "text"; text := JSON_stringify_2 data |} ];
              isError := None |}) /\
  JSON_stringify_2 Scenario.record = record_text /\
  JSON_stringify_2 listing = listing_text.
Proof.
  split; [|split; [|split; [|split]]].
  - rewrite handler_requests, dispatch_add_task, add_task_run. reflexivity.
  - reflexivity.
  - intros response data Hfetch Hjson.
    rewrite handler_outcome, dispatch_add_task, add_task_run. simpl.
    unfold json_reply. rewrite Hfetch, Hjson. reflexivity.
  - reflexivity.
  - reflexivity.
Qed.

(** The store answers with the sample record, and with the sample page. *)
Lemma add_task_buy_milk_witness :
  outcome (CallToolRequest_handler (Scenario.store 200 (inr Scenario.record))
             (mkCall "add_task" (Some buy_milk))) =
    inr {| content := [ {| type := "text"; text := record_text |} ];
           isError := None |}
  /\ outcome (CallToolRequest_handler (Scenario.store 200 (inr listing))
                (mkCall "add_task" (Some buy_milk))) =
       inr {| content := [ {| type := "text"; text := listing_text |} ];
              isError := None |}.
Proof.
  split.
  - exact (proj1 (proj2 (proj2 (add_task_buy_milk
                                  (Scenario.store 200 (inr Scenario.record)))))
             (mkResponse 200 (inr Scenario.record)) Scenario.record
             eq_refl eq_refl).
  - exact (proj1 (proj2 (proj2 (add_task_buy_milk
                                  (Scenario.store 200 (inr listing)))))
             (mkResponse 200 (inr listing)) listing eq_refl eq_refl).
Defined.

(** *** update_task *)

(** C6, the claim as stated fails: an update_task invocation that carries
    no arguments issues no request at all, and neither does one whose
    task_id is an object with a property named toString, which has no
    conversion to a string. *)
Lemma update_task_without_request :
  requests (CallToolRequest_handler (Scenario.store 200 (inr Scenario.record))
              (mkCall "update_task" None)) = []
  /\ requests (CallToolRequest_handler (Scenario.store 200 (inr Scenario.record))
                 (mkCall "update_task"
                    (Some [("task_id", JObj [("toString", JNum (mkNumber 1 eq_refl))]);
                           ("done", JBool true)]))) = [].
Proof.
  split; reflexivity.
Qed.

(** C6, amended. For every update_task invocation that carries an
    argument bag whose task_id has a conversion to a string (as every
    string, number, boolean, null and missing task_id has), exactly one
    request is issued: a PATCH to the base address, a slash and that
    string, whose body is the serialization of all the arguments of the
    bag except task_id, forwarded verbatim: the body object is the bag
    with the task_id property filtered out, so that a property the
    descriptor does not know is forwarded like the others.  For the
    arguments {task_id: abc123, done: true} the request is a PATCH to the
    base address followed by /abc123 with the body {done: true}. *)
Theorem update_task_request (host : Host) (o : object) (id : string) :
  ToString (wording host) (lookup "task_id" o) = inr id ->
  requests (CallToolRequest_handler host (mkCall "update_task" (Some o))) =
    [ {| url := API_BASE host ++ "/" ++ id;
         method := PATCH;
         headers := [("Content-Type", "application/json")];
         body := Some (JSON_stringify (JObj (without "task_id" o))) |} ] /\
  lookup "task_id" (without "task_id" o) = None /\
  (forall key, key <> "task_id" ->
               lookup key (without "task_id" o) = lookup key o) /\
  without "task_id" o =
    filter (fun p => negb (String.eqb (fst p) "task_id")) o /\
  requests (CallToolRequest_handler host (mkCall "update_task" (Some mark_done))) =
    [ {| url := API_BASE host ++ "/abc123";
         method := PATCH;
         headers := [("Content-Type", "application/json")];
         body := Some mark_done_body |} ].
Proof.
  intros H. split; [|split; [|split; [|split]]].
  - rewrite handler_requests, dispatch_update_task, (update_task_run _ _ _ H).
    reflexivity.
  - apply lookup_without_same.
  - intros key Hkey. apply lookup_without_other. exact Hkey.
  - apply without_filter.
  - rewrite handler_requests, dispatch_update_task.
    rewrite (update_task_run host mark_done "abc123" eq_refl).
    reflexivity.
Qed.

(** The example of C6: {task_id: abc123, done: true}. *)
Lemma update_task_request_witness :
  ToString Scenario.node_wording (lookup "task_id" mark_done) = inr "abc123"
  /\ requests (CallToolRequest_handler (Scenario.store 200 (inr Scenario.record))
                 (mkCall "update_task" (Some mark_done))) =
       [ {| url := Scenario.base ++ "/abc123";
            method := PATCH;
            headers := [("Content-Type", "application/json")];
            body := Some mark_done_body |} ].
Proof.
  split; [reflexivity|].
  apply (proj1 (update_task_request (Scenario.store 200 (inr Scenario.record))
                  mark_done "abc123" eq_refl)).
Defined.

(** *** delete_task *)

(** C7. For every delete_task invocation whose network call settles with
    a response, the envelope returned is not flagged as an error and its
    only text is [Task <task_id> deleted successfully] when the status is
    in the range 200 to 299, and [Failed to delete task <task_id>]
    otherwise, task_id standing for the conversion of the argument to a
    string (a string is its own conversion).  The result is a function of
    the success indicator and of that string alone: the body of the
    response takes no part in it. *)
Theorem delete_task_envelope (host : Host) (o : object) (id : string)
        (response : Response) :
  ToString (wording host) (lookup "task_id" o) = inr id ->
  fetch host {| url := API_BASE host ++ "/" ++ id;
                method := DELETE; headers := []; body := None |}
    = inr response ->
  CallToolRequest_handler host (mkCall "delete_task" (Some o)) =
    ([ {| url := API_BASE host ++ "/" ++ id;
          method := DELETE; headers := []; body := None |} ],
     inr {| content :=
              [ {| type := "text";
                   text := if Response_ok response
                           then "Task " ++ id ++ " deleted successfully"
                           else "Failed to delete task " ++ id |} ];
            isError := None |}).
Proof.
  intros Hid Hfetch. unfold CallToolRequest_handler.
  rewrite dispatch_delete_task, (delete_task_run _ _ _ Hid).
  unfold delete_reply, delete_request. rewrite Hfetch. reflexivity.
Qed.

(** The example of C7: task abc123 against a store that answers 200, and
    against one that answers 404; neither body is JSON. *)
Lemma delete_task_envelope_witness :
  outcome (CallToolRequest_handler (Scenario.store 200 (inl Scenario.not_json))
             (mkCall "delete_task" (Some [("task_id", JStr "abc123")]))) =
    inr {| content :=
             [ {| type := "text"; text := "Task abc123 deleted successfully" |} ];
           isError := None |}
  /\ outcome (CallToolRequest_handler (Scenario.store 404 (inl Scenario.not_json))
                (mkCall "delete_task" (Some [("task_id", JStr "abc123")]))) =
       inr {| content :=
                [ {| type := "text"; text := "Failed to delete task abc123" |} ];
              isError := None |}.
Proof.
  split.
  - exact (f_equal outcome
             (delete_task_envelope (Scenario.store 200 (inl Scenario.not_json))
                [("task_id", JStr "abc123")] "abc123"
                (mkResponse 200 (inl Scenario.not_json)) eq_refl eq_refl)).
  - exact (f_equal outcome
             (delete_task_envelope (Scenario.store 404 (inl Scenario.not_json))
                [("task_id", JStr "abc123")] "abc123"
                (mkResponse 404 (inl Scenario.not_json)) eq_refl eq_refl)).
Defined.

(** *** Answers outside the range 200 to 299 *)



(** *** Falsy parameters of list_tasks *)

Lemma entry_falsy (render : value -> Error + string) (key : string) (v : value) :
  truthy v = false -> entry render key v = inr [].
Proof.
  intros H. unfold entry. rewrite H. reflexivity.
Qed.

Lemma entry_names (render : value -> Error + string) (key : string) (v : value)
      (pairs : URL.URLSearchParams) :
  entry render key v = inr pairs ->
  forall k, In k (map fst pairs) -> k = key /\ truthy v = true.
Proof.
  unfold entry. intros H k Hin.
  destruct (truthy v); [|injection H as <-; destruct Hin].
  destruct (render v) as [e|s]; [discriminate|].
  injection H as <-. destruct Hin as [<-|[]]. split; reflexivity.
Qed.

(** The list_tasks branch reads three properties of the bag and nothing
    else: a bag without one of them, falsy in the original, runs alike. *)
Lemma entries_without (host : Host) (o : object) (key : string) :
  key = "filter" \/ key = "sort" \/ key = "page" ->
  truthy (lookup key o) = false ->
  entries host (lookup "filter" (without key o)) (lookup "sort" (without key o))
          (lookup "page" (without key o)) =
  entries host (lookup "filter" o) (lookup "sort" o) (lookup "page" o).
Proof.
  intros [-> | [-> | ->]] H; unfold entries, filter_entry, sort_entry, page_entry;
    rewrite lookup_without_same;
    repeat rewrite lookup_without_other by discriminate;
    rewrite (entry_falsy _ _ _ H); reflexivity.
Qed.

(** C9. In a list_tasks invocation a parameter supplied with a falsy
    value (the empty string for filter or sort, 0 for page, and likewise
    null or false) is treated exactly as if it were absent: the
    invocation issues the requests and returns the envelope of the one
    whose bag lacks that parameter, and no request issued carries a pair
    of that name in its query.  When all three are falsy the request is
    the GET of the bare base address. *)
Theorem falsy_parameter_is_absent (host : Host) (o : object) (key : string) :
  key = "filter" \/ key = "sort" \/ key = "page" ->
  truthy (lookup key o) = false ->
  CallToolRequest_handler host (mkCall "list_tasks" (Some o)) =
    CallToolRequest_handler host (mkCall "list_tasks" (Some (without key o)))
  /\ (forall rq,
        In rq (requests (CallToolRequest_handler host
                           (mkCall "list_tasks" (Some o)))) ->
        exists params,
          url rq = (if String.eqb (URL.toString params) ""
                    then API_BASE host
                    else API_BASE host ++ "?" ++ URL.toString params)
          /\ ~ In key (map fst params))
  /\ (truthy (lookup "filter" o) = false ->
      truthy (lookup "sort" o) = false ->
      truthy (lookup "page" o) = false ->
      requests (CallToolRequest_handler host (mkCall "list_tasks" (Some o))) =
        [ {| url := API_BASE host; method := GET; headers := [];
             body := None |} ]).
Proof.
  intros Hkey Hfalsy. split; [|split].
  - unfold CallToolRequest_handler. rewrite !dispatch_list_tasks.
    unfold list_tasks. rewrite !search_params_run.
    rewrite (entries_without host o key Hkey Hfalsy). reflexivity.
  - intros rq Hin.
    destruct (list_tasks_requests host (Some o) rq Hin)
      as (o' & params & [= <-] & E & -> & _).
    exists params. split; [reflexivity|].
    destruct (entries_inv host _ _ _ _ E) as (f & s & p & Hf & Hs & Hp & ->).
    rewrite !map_app. intros Hin'.
    apply in_app_or in Hin'. destruct Hin' as [Hin'|Hin'];
      [|apply in_app_or in Hin'; destruct Hin' as [Hin'|Hin']].
    + destruct (entry_names _ _ _ _ Hf key Hin') as [-> T]. congruence.
    + destruct (entry_names _ _ _ _ Hs key Hin') as [-> T]. congruence.
    + destruct (entry_names _ _ _ _ Hp key Hin') as [-> T]. congruence.
  - intros Tf Ts Tp.
    rewrite handler_requests, dispatch_list_tasks.
    rewrite (list_tasks_run host o []); [reflexivity|].
    unfold entries, filter_entry, sort_entry, page_entry.
    rewrite !entry_falsy by assumption. reflexivity.
Qed.

(** A bag whose three parameters are the empty string, the empty string
    and 0. *)
Lemma falsy_parameter_is_absent_witness :
  truthy (lookup "page" all_falsy) = false
  /\ CallToolRequest_handler (Scenario.store 200 (inr Scenario.record))
       (mkCall "list_tasks" (Some all_falsy)) =
     CallToolRequest_handler (Scenario.store 200 (inr Scenario.record))
       (mkCall "list_tasks" (Some [("filter", JStr ""); ("sort", JStr "")]))
  /\ requests (CallToolRequest_handler (Scenario.store 200 (inr Scenario.record))
                 (mkCall "list_tasks" (Some all_falsy))) =
       [ {| url := Scenario.base; method := GET; headers := [];
            body := None |} ].
Proof.
  split; [reflexivity|].
  destruct (falsy_parameter_is_absent (Scenario.store 200 (inr Scenario.record))
              all_falsy "page" (or_intror (or_intror eq_refl)) eq_refl)
    as (Hsame & _ & Hbare).
  split; [exact Hsame|].
  exact (Hbare eq_refl eq_refl eq_refl).
Defined.

(** *** A bag without task_id *)

(** C10. An update_task or delete_task invocation whose argument bag has
    no task_id fails nowhere before the network call: the request is
    issued all the same, to the base address followed by [/undefined]
    (for update_task with the whole bag as its body), and the invocation
    goes on as usual from there: the update returns the printed body of
    the response, the deletion one of its two messages. *)
Theorem missing_task_id_goes_to_undefined (host : Host) (o : object) :
  lookup "task_id" o = None ->
  (requests (CallToolRequest_handler host (mkCall "update_task" (Some o))) =
     [ {| url := API_BASE host ++ "/undefined";
          method := PATCH;
          headers := [("Content-Type", "application/json")];
          body := Some (JSON_stringify (JObj o)) |} ]
   /\ forall response data,
        fetch host {| url := API_BASE host ++ "/undefined";
                      method := PATCH;
                      headers := [("Content-Type", "application/json")];
                      body := Some (JSON_stringify (JObj o)) |}
          = inr response ->
        Response_json response = inr data ->
        outcome (CallToolRequest_handler host (mkCall "update_task" (Some o))) =
          inr {| content :=
                   [ {| type := "text"; text := JSON_stringify_2 data |} ];
                 isError := None |})
  /\ (requests (CallToolRequest_handler host (mkCall "delete_task" (Some o))) =
        [ {| url := API_BASE host ++ "/undefined";
             method := DELETE; headers := []; body := None |} ]
      /\ forall response,
           fetch host {| url := API_BASE host ++ "/undefined";
                         method := DELETE; headers := []; body := None |}
             = inr response ->
           outcome (CallToolRequest_handler host
                      (mkCall "delete_task" (Some o))) =
             inr {| content :=
                      [ {| type := "text";
                           text := if Response_ok response
                                   then "Task undefined deleted successfully"
                                   else "Failed to delete task undefined" |} ];
                    isError := None |}).
Proof.
  intros Hmissing.
  assert (Hid : ToString (wording host) (lookup "task_id" o) = inr "undefined")
    by (rewrite Hmissing; reflexivity).
  assert (Hpatch : patch_request host "undefined" o =
                   {| url := API_BASE host ++ "/undefined";
                      method := PATCH;
                      headers := [("Content-Type", "application/json")];
                      body := Some (JSON_stringify (JObj o)) |})
    by (unfold patch_request; rewrite (without_absent _ _ Hmissing);
        reflexivity).
  assert (Hdelete : delete_request host "undefined" =
                    {| url := API_BASE host ++ "/undefined";
                       method := DELETE; headers := []; body := None |})
    by reflexivity.
  split; split.
  - rewrite handler_requests, dispatch_update_task, (update_task_run _ _ _ Hid).
    rewrite Hpatch. reflexivity.
  - intros response data Hfetch Hjson.
    rewrite handler_outcome, dispatch_update_task, (update_task_run _ _ _ Hid).
    rewrite Hpatch. simpl. unfold json_reply. rewrite Hfetch, Hjson.
    reflexivity.
  - rewrite handler_requests, dispatch_delete_task, (delete_task_run _ _ _ Hid).
    reflexivity.
  - intros response Hfetch.
    rewrite handler_outcome, dispatch_delete_task, (delete_task_run _ _ _ Hid).
    simpl. unfold delete_reply. rewrite Hdelete, Hfetch. reflexivity.
Qed.

(** A bag that holds {done: true} and no task_id, on a store that answers
    404 with its error object. *)
Lemma missing_task_id_goes_to_undefined_witness :
  lookup "task_id" [("done", JBool true)] = None
  /\ requests (CallToolRequest_handler (Scenario.store 404 (inr Scenario.not_found))
                 (mkCall "update_task" (Some [("done", JBool true)]))) =
       [ {| url := Scenario.base ++ "/undefined";
            method := PATCH;
            headers := [("Content-Type", "application/json")];
            body := Some mark_done_body |} ]
  /\ outcome (CallToolRequest_handler (Scenario.store 404 (inr Scenario.not_found))
                (mkCall "update_task" (Some [("done", JBool true)]))) =
       inr (text_result (JSON_stringify_2 Scenario.not_found))
  /\ requests (CallToolRequest_handler (Scenario.store 404 (inr Scenario.not_found))
                 (mkCall "delete_task" (Some [("done", JBool true)]))) =
       [ {| url := Scenario.base ++ "/undefined";
            method := DELETE; headers := []; body := None |} ]
  /\ outcome (CallToolRequest_handler (Scenario.store 404 (inr Scenario.not_found))
                (mkCall "delete_task" (Some [("done", JBool true)]))) =
       inr (text_result "Failed to delete task undefined").
Proof.
  split; [reflexivity|].
  destruct (missing_task_id_goes_to_undefined
              (Scenario.store 404 (inr Scenario.not_found))
              [("done", JBool true)] eq_refl)
    as ((Hpatch & Hupdated) & (Hdelete & Hdeleted)).
  split; [exact Hpatch|].
  split; [exact (Hupdated (mkResponse 404 (inr Scenario.not_found))
                   Scenario.not_found eq_refl eq_refl)|].
  split; [exact Hdelete|].
  exact (Hdeleted (mkResponse 404 (inr Scenario.not_found)) eq_refl).
Defined.

(** ** Further properties *)

(** *** Characters of a query *)

Lemma forall_chars_app (p : ascii -> bool) (a b : string) :
  forall_chars p (a ++ b) = forall_chars p a && forall_chars p b.
Proof.
  induction a as [|c a IH]; simpl; [reflexivity|].
  rewrite IH. apply andb_assoc.
Qed.

Lemma forall_chars_weaken (p q : ascii -> bool) (s : string) :
  (forall c, p c = true -> q c = true) ->
  forall_chars p s = true -> forall_chars q s = true.
Proof.
  intros Hpq. induction s as [|c s IH]; simpl; [reflexivity|].
  intros H. apply andb_true_iff in H. destruct H as [Hc Hs].
  rewrite (Hpq c Hc), (IH Hs). reflexivity.
Qed.

Ltac each_byte c :=
  destruct c as [[] [] [] [] [] [] [] []]; vm_compute; reflexivity.

Lemma encode_byte_chars (c : ascii) :
  forall_chars escaped_char (URL.encode_byte c) = true.
Proof. each_byte c. Qed.

Lemma encode_chars (s : string) : forall_chars escaped_char (URL.encode s) = true.
Proof.
  induction s as [|c s IH]; simpl; [reflexivity|].
  rewrite forall_chars_app, encode_byte_chars, IH. reflexivity.
Qed.

Lemma escaped_is_not (sep : ascii) :
  escaped_char sep = false ->
  forall c, escaped_char c = true -> negb (Ascii.eqb c sep) = true.
Proof.
  intros Hsep c Hc. destruct (Ascii.eqb_spec c sep) as [->|]; [|reflexivity].
  congruence.
Qed.

(** *** Decoding what was encoded *)

Lemma decode_encode_byte (c : ascii) (rest : string) :
  Form.decode (URL.encode_byte c ++ rest) = String c (Form.decode rest).
Proof.
  destruct c as [[] [] [] [] [] [] [] []]; reflexivity.
Qed.

Lemma decode_encode (s : string) : Form.decode (URL.encode s) = s.
Proof.
  induction s as [|c s IH]; [reflexivity|].
  simpl URL.encode. rewrite decode_encode_byte, IH. reflexivity.
Qed.

(** *** Splitting what was joined *)

Section Separator.

Variable sep : ascii.

Lemma split_on_free (s : string) : free_of sep s = true -> Form.split_on sep s = [s].
Proof.
  unfold free_of. induction s as [|c s IH]; simpl; [reflexivity|].
  intros H. apply andb_true_iff in H. destruct H as [Hc Hs].
  apply negb_true_iff in Hc. rewrite Hc, (IH Hs). reflexivity.
Qed.

Lemma split_on_app (a b : string) :
  free_of sep a = true ->
  Form.split_on sep (a ++ String sep b) = a :: Form.split_on sep b.
Proof.
  unfold free_of. induction a as [|c a IH]; simpl.
  - intros _. rewrite Ascii.eqb_refl. reflexivity.
  - intros H. apply andb_true_iff in H. destruct H as [Hc Ha].
    apply negb_true_iff in Hc. rewrite Hc, (IH Ha). reflexivity.
Qed.

Lemma break_at_app (a b : string) :
  free_of sep a = true -> Form.break_at sep (a ++ String sep b) = (a, b).
Proof.
  unfold free_of. induction a as [|c a IH]; simpl.
  - intros _. rewrite Ascii.eqb_refl. reflexivity.
  - intros H. apply andb_true_iff in H. destruct H as [Hc Ha].
    apply negb_true_iff in Hc. rewrite Hc, (IH Ha). reflexivity.
Qed.

Lemma split_on_join (parts : list string) :
  parts <> [] ->
  Forall (fun s => free_of sep s = true) parts ->
  Form.split_on sep (join (String sep "") parts) = parts.
Proof.
  intros Hne Hfree. induction Hfree as [|p rest Hp Hrest IH]; [contradiction|].
  destruct rest as [|q rest].
  - simpl. apply split_on_free. exact Hp.
  - change (join (String sep "") (p :: q :: rest))
      with (p ++ String sep (join (String sep "") (q :: rest))).
    rewrite (split_on_app _ _ Hp), IH by discriminate. reflexivity.
Qed.

End Separator.

(** *** The query, written and read back *)

Lemma encode_free_of (sep : ascii) (s : string) :
  escaped_char sep = false -> free_of sep (URL.encode s) = true.
Proof.
  intros Hsep. unfold free_of.
  apply (forall_chars_weaken escaped_char); [|apply encode_chars].
  apply escaped_is_not. exact Hsep.
Qed.

Lemma pair_free_of_ampersand (p : string * string) :
  free_of "&" (URL.pair_toString p) = true.
Proof.
  unfold URL.pair_toString, free_of.
  rewrite !forall_chars_app.
  fold (free_of "&" (URL.encode (fst p))).
  fold (free_of "&" (URL.encode (snd p))).
  rewrite !encode_free_of by reflexivity. reflexivity.
Qed.

Lemma pair_nonempty (p : string * string) :
  Form.nonempty (URL.pair_toString p) = true.
Proof.
  unfold URL.pair_toString, Form.nonempty.
  destruct (URL.encode (fst p)); reflexivity.
Qed.

Lemma parse_pair_toString (p : string * string) :
  Form.parse_pair (URL.pair_toString p) = p.
Proof.
  destruct p as [name value].
  unfold Form.parse_pair, URL.pair_toString. simpl fst. simpl snd.
  change (URL.encode name ++ "=" ++ URL.encode value)
    with (URL.encode name ++ String "=" (URL.encode value)).
  rewrite break_at_app by (apply encode_free_of; reflexivity).
  rewrite !decode_encode. reflexivity.
Qed.

Lemma filter_all {A : Type} (f : A -> bool) (l : list A) :
  Forall (fun x => f x = true) l -> filter f l = l.
Proof.
  induction 1 as [|x l Hx _ IH]; simpl; [reflexivity|].
  rewrite Hx, IH. reflexivity.
Qed.

(** The parser reads back the pairs the serializer wrote: names, values
    and order, with any character in them. *)
Lemma query_round_trip (params : URL.URLSearchParams) :
  Form.parse (URL.toString params) = params.
Proof.
  unfold Form.parse, URL.toString.
  destruct params as [|p rest]; [reflexivity|].
  rewrite (split_on_join "&") ;
    [|discriminate
     |apply Forall_forall; intros piece Hin; apply in_map_iff in Hin;
      destruct Hin as (q & <- & _); apply pair_free_of_ampersand].
  rewrite filter_all
    by (apply Forall_forall; intros piece Hin; apply in_map_iff in Hin;
        destruct Hin as (q & <- & _); apply pair_nonempty).
  rewrite map_map. rewrite <- (map_id (p :: rest)) at 2.
  apply map_ext. intros q. apply parse_pair_toString.
Qed.

(** *** Texts *)

Lemma append_cancel (a b c : string) : a ++ b = a ++ c -> b = c.
Proof.
  induction a as [|x a IH]; simpl; [trivial|].
  intros [= H]. exact (IH H).
Qed.

Lemma append_fixed (a b : string) : a = a ++ b -> b = "".
Proof.
  induction a as [|x a IH]; [intros H; symmetry; exact H|].
  intros [= H]. exact (IH H).
Qed.

Lemma prefix_append (a b : string) : String.prefix a (a ++ b) = true.
Proof.
  induction a as [|x a IH]; simpl; [destruct b; reflexivity|].
  destruct (ascii_dec x x) as [_|Hne]; [exact IH|contradiction].
Qed.

Lemma toString_empty (params : URL.URLSearchParams) :
  URL.toString params = "" <-> params = [].
Proof.
  split; [|intros ->; reflexivity].
  intros H. pose proof (query_round_trip params) as R.
  rewrite H in R. symmetry. exact R.
Qed.

(** *** Values and their conversion *)

Lemma json_nested_ind (P : json -> Prop) :
  P JNull -> (forall b, P (JBool b)) -> (forall n, P (JNum n)) ->
  (forall s, P (JStr s)) ->
  (forall elements, Forall P elements -> P (JArr elements)) ->
  (forall properties,
     Forall (fun kv => P (snd kv)) properties -> P (JObj properties)) ->
  forall v, P v.
Proof.
  intros Hnull Hbool Hnum Hstr Harr Hobj.
  refine (fix F (v : json) : P v :=
            match v with
            | JNull => Hnull
            | JBool b => Hbool b
            | JNum z => Hnum z
            | JStr s => Hstr s
            | JArr elements =>
                Harr elements
                  ((fix G (l : list json) : Forall P l :=
                      match l with
                      | [] => Forall_nil P
                      | e :: rest => Forall_cons e (F e) (G rest)
                      end) elements)
            | JObj properties =>
                Hobj properties
                  ((fix G (l : list (string * json))
                      : Forall (fun kv => P (snd kv)) l :=
                      match l with
                      | [] => Forall_nil _
                      | kv :: rest => Forall_cons kv (F (snd kv)) (G rest)
                      end) properties)
            end).
Qed.

Section Conversion.

Variable wording : fault -> string.

Lemma ToString_json_array (elements : list json) :
  ToString_json wording (JArr elements) =
    match sequence (map (element wording) elements) with
    | inl error => inl error
    | inr parts => inr (join "," parts)
    end.
Proof.
  simpl.
  replace (map (element wording) elements)
    with ((fix each (l : list json) : list (Error + string) :=
             match l with
             | [] => []
             | e :: rest =>
                 match e with
                 | JNull => inr ""
                 | _ => ToString_json wording e
                 end :: each rest
             end) elements); [reflexivity|].
  induction elements as [|e rest IH]; [reflexivity|].
  simpl map. rewrite <- IH. reflexivity.
Qed.

Lemma convertible_array (elements : list json) :
  convertible (JArr elements) = forallb convertible elements.
Proof.
  simpl. induction elements as [|e rest IH]; [reflexivity|].
  simpl. rewrite IH. reflexivity.
Qed.

Lemma element_converts (e : json) :
  converts wording e ->
  (convertible e = true -> exists s, element wording e = inr s)
  /\ (convertible e = false ->
      element wording e = inl (TypeError wording NoPrimitiveValue)).
Proof.
  intros [Hyes Hno]. destruct e; try exact (conj Hyes Hno).
  split; [intros _; eexists; reflexivity|discriminate].
Qed.

Lemma sequence_converts (elements : list json) :
  Forall (converts wording) elements ->
  (forallb convertible elements = true ->
   exists parts, sequence (map (element wording) elements) = inr parts)
  /\ (forallb convertible elements = false ->
      sequence (map (element wording) elements) =
        inl (TypeError wording NoPrimitiveValue)).
Proof.
  induction 1 as [|e rest He _ [IHyes IHno]]; simpl.
  - split; [intros _; eexists; reflexivity|discriminate].
  - destruct (element_converts e He) as [Hyes Hno].
    destruct (convertible e); simpl.
    + destruct (Hyes eq_refl) as [s ->]. split.
      * intros H. destruct (IHyes H) as [parts ->]. eexists; reflexivity.
      * intros H. rewrite (IHno H). reflexivity.
    + rewrite (Hno eq_refl). split; [discriminate|reflexivity].
Qed.

Lemma ToString_json_converts (v : json) : converts wording v.
Proof.
  induction v as [|b|z|s|elements IH|properties _] using json_nested_ind;
    try (split; [intros _; eexists; reflexivity|discriminate]).
  - unfold converts. rewrite ToString_json_array, convertible_array.
    destruct (sequence_converts elements IH) as [Hyes Hno]. split.
    + intros H. destruct (Hyes H) as [parts ->]. eexists; reflexivity.
    + intros H. rewrite (Hno H). reflexivity.
  - unfold converts. simpl.
    destruct (has_own "toString" properties); simpl; split;
      try discriminate; intros _; [reflexivity|eexists; reflexivity].
Qed.

Lemma ToString_converts (v : value) :
  (convertible_value v = true -> exists s, ToString wording v = inr s)
  /\ (convertible_value v = false ->
      ToString wording v = inl (TypeError wording NoPrimitiveValue)).
Proof.
  destruct v as [j|]; [exact (ToString_json_converts j)|].
  split; [intros _; eexists; reflexivity|discriminate].
Qed.

End Conversion.

(** *** The ways of an invocation *)

(** An invocation either throws before any request, or issues the one
    request of its branch and makes its result of the settled call. *)
Lemma dispatch_cases (host : Host) (n : string) (args : option object) :
  (exists error, dispatch host (mkCall n args) = ([], inl error))
  \/ (exists o,
        args = Some o /\ n = "add_task" /\
        dispatch host (mkCall n args) =
          ([post_request host o], json_reply host (post_request host o)))
  \/ (exists o params,
        args = Some o /\ n = "list_tasks" /\
        entries host (lookup "filter" o) (lookup "sort" o) (lookup "page" o)
          = inr params /\
        dispatch host (mkCall n args) =
          ([get_request host params], json_reply host (get_request host params)))
  \/ (exists o id,
        args = Some o /\ n = "update_task" /\
        ToString (wording host) (lookup "task_id" o) = inr id /\
        dispatch host (mkCall n args) =
          ([patch_request host id o], json_reply host (patch_request host id o)))
  \/ (exists o id,
        args = Some o /\ n = "delete_task" /\
        ToString (wording host) (lookup "task_id" o) = inr id /\
        dispatch host (mkCall n args) =
          ([delete_request host id], delete_reply host id)).
Proof.
  destruct (switch_cases n) as [->|[->|[->|[->|(Ha & Hl & Hu & Hd)]]]].
  - rewrite dispatch_add_task. destruct args as [o|].
    + right; left. exists o. rewrite add_task_run. auto.
    + left. eexists. reflexivity.
  - rewrite dispatch_list_tasks. destruct args as [o|].
    + destruct (entries host (lookup "filter" o) (lookup "sort" o)
                  (lookup "page" o)) as [e|params] eqn:E.
      * left. exists e. apply list_tasks_throws. exact E.
      * right; right; left. exists o, params.
        rewrite (list_tasks_run _ _ _ E). auto.
    + left. eexists. reflexivity.
  - rewrite dispatch_update_task. destruct args as [o|].
    + destruct (ToString (wording host) (lookup "task_id" o)) as [e|id] eqn:E.
      * left. exists e. apply update_task_throws. exact E.
      * right; right; right; left. exists o, id.
        rewrite (update_task_run _ _ _ E). auto.
    + left. eexists. reflexivity.
  - rewrite dispatch_delete_task. destruct args as [o|].
    + destruct (ToString (wording host) (lookup "task_id" o)) as [e|id] eqn:E.
      * left. exists e. apply delete_task_throws. exact E.
      * right; right; right; right. exists o, id.
        rewrite (delete_task_run _ _ _ E). auto.
    + left. eexists. reflexivity.
  - left. eexists.
    apply (dispatch_unknown host (mkCall n args)); assumption.
Qed.

Lemma json_reply_text (host : Host) (rq : Request) (result : CallToolResult) :
  json_reply host rq = inr result -> exists t, result = text_result t.
Proof.
  unfold json_reply. destruct (fetch host rq) as [e|response]; [discriminate|].
  destruct (Response_json response) as [e|data]; [discriminate|].
  intros [= <-]. eexists. reflexivity.
Qed.

Lemma delete_reply_text (host : Host) (id : string) (result : CallToolResult) :
  delete_reply host id = inr result -> exists t, result = text_result t.
Proof.
  unfold delete_reply.
  destruct (fetch host (delete_request host id)) as [e|response];
    [discriminate|].
  intros [= <-]. eexists. reflexivity.
Qed.

Lemma dispatch_result_text (host : Host) (request : CallToolRequest)
      (result : CallToolResult) :
  outcome (dispatch host request) = inr result ->
  exists t, result = text_result t.
Proof.
  destruct request as [n args].
  destruct (dispatch_cases host n args)
    as [(e & ->)|[(o & _ & _ & ->)|[(o & params & _ & _ & _ & ->)
       |[(o & id & _ & _ & _ & ->)|(o & id & _ & _ & _ & ->)]]]]; simpl.
  - discriminate.
  - apply json_reply_text.
  - apply json_reply_text.
  - apply json_reply_text.
  - apply delete_reply_text.
Qed.

(** X1. The start-up guard lets the server run exactly when the
    API_BASE variable of the environment is set to a non-empty text, which
    then is the base address; a variable that is missing or empty stops
    it with the error [API_BASE environment variable is required]. *)
Theorem startup_guard (env_API_BASE : option string) :
  (forall base,
     Startup.load_API_BASE env_API_BASE = inr base <->
     env_API_BASE = Some base /\ base <> "")
  /\ (forall error,
        Startup.load_API_BASE env_API_BASE = inl error <->
        (env_API_BASE = None \/ env_API_BASE = Some "")
        /\ error = mkError "Error" "API_BASE environment variable is required").
Proof.
  unfold Startup.load_API_BASE. destruct env_API_BASE as [s|]; simpl.
  - destruct (String.eqb_spec s "") as [->|Hne]; simpl; split.
    + intros base. split; [discriminate|]. intros [[= <-] H]. congruence.
    + intros error. split.
      * intros [= <-]. split; [right|]; reflexivity.
      * intros [_ ->]. reflexivity.
    + intros base. split.
      * intros [= <-]. split; [reflexivity|exact Hne].
      * intros [[= <-] _]. reflexivity.
    + intros error. split; [discriminate|].
      intros [[H|[= H]] _]; [discriminate|contradiction].
  - split.
    + intros base. split; [discriminate|]. intros [H _]. discriminate.
    + intros error. split.
      * intros [= <-]. split; [left|]; reflexivity.
      * intros [_ ->]. reflexivity.
Qed.

(** X2. An invocation that carries no argument bag issues no request,
    whichever of the four tools it names: the first read of the arguments
    throws, and the envelope returned is flagged as an error with the
    engine's message for that read (of name, of filter, of the
    destructured task_id, of task_id). *)
Theorem no_arguments_is_a_local_error (host : Host) :
  CallToolRequest_handler host (mkCall "add_task" None) =
    ([], inr {| content :=
                  [ {| type := "text";
                       text := "Error: " ++ wording host (ReadOfUndefined "name") |} ];
                isError := Some true |})
  /\ CallToolRequest_handler host (mkCall "list_tasks" None) =
       ([], inr {| content :=
                     [ {| type := "text";
                          text := "Error: "
                                    ++ wording host (ReadOfUndefined "filter") |} ];
                   isError := Some true |})
  /\ CallToolRequest_handler host (mkCall "update_task" None) =
       ([], inr {| content :=
                     [ {| type := "text";
                          text := "Error: "
                                    ++ wording host
                                         (DestructureOfUndefined "task_id") |} ];
                   isError := Some true |})
  /\ CallToolRequest_handler host (mkCall "delete_task" None) =
       ([], inr {| content :=
                     [ {| type := "text";
                          text := "Error: "
                                    ++ wording host (ReadOfUndefined "task_id") |} ];
                   isError := Some true |}).
Proof.
  repeat split.
Qed.

(** X3. No invocation issues more than one request. *)
Theorem one_request_at_most (host : Host) (request : CallToolRequest) :
  length (requests (CallToolRequest_handler host request)) <= 1.
Proof.
  rewrite handler_requests. destruct request as [n args].
  destruct (dispatch_cases host n args)
    as [(e & ->)|[(o & _ & _ & ->)|[(o & params & _ & _ & _ & ->)
       |[(o & id & _ & _ & _ & ->)|(o & id & _ & _ & _ & ->)]]]]; simpl; lia.
Qed.

(** X4. Every envelope holds exactly one content item, of type text.  Its
    error flag is either absent or true, never false: it is true exactly
    when the branch threw, the text then being [Error: ] followed by the
    message thrown, and absent exactly when the branch returned. *)
Theorem envelope_shape (host : Host) (request : CallToolRequest) :
  exists t flag,
    outcome (CallToolRequest_handler host request) =
      inr {| content := [ {| type := "text"; text := t |} ]; isError := flag |}
    /\ ((flag = None /\
         outcome (dispatch host request) =
           inr {| content := [ {| type := "text"; text := t |} ];
                  isError := None |})
        \/ (flag = Some true /\
            exists error, outcome (dispatch host request) = inl error
                          /\ t = "Error: " ++ message error)).
Proof.
  rewrite handler_outcome.
  destruct (outcome (dispatch host request)) as [e|result] eqn:E.
  - exists ("Error: " ++ message e), (Some true).
    split; [reflexivity|]. right. split; [reflexivity|].
    exists e. split; reflexivity.
  - destruct (dispatch_result_text host request result E) as [t ->].
    exists t, None. split; [reflexivity|]. left. split; reflexivity.
Qed.

Lemma prefix_refl (a : string) : String.prefix a a = true.
Proof.
  induction a as [|x a IH]; simpl; [reflexivity|].
  destruct (ascii_dec x x) as [_|Hne]; [exact IH|contradiction].
Qed.

Lemma get_request_url (host : Host) (params : URL.URLSearchParams) :
  (params = [] /\ url (get_request host params) = API_BASE host)
  \/ (params <> [] /\ URL.toString params <> "" /\
      url (get_request host params) =
        API_BASE host ++ "?" ++ URL.toString params).
Proof.
  unfold get_request; simpl.
  destruct (String.eqb_spec (URL.toString params) "") as [E|E].
  - left. split; [apply toString_empty; exact E|reflexivity].
  - right. split; [|split; [exact E|reflexivity]].
    intros ->. apply E. reflexivity.
Qed.

(** X5. Every request goes to the configured base address: its URL
    starts with it.  The tool named fixes the rest of its shape: add_task
    a POST to the base address itself and update_task a PATCH to the base
    address, a slash and an identifier, both with the JSON content type
    and a body; list_tasks a GET and delete_task a DELETE to the base
    address, a slash and an identifier, both without headers and without
    a body. *)
Theorem request_shape (host : Host) (request : CallToolRequest) (rq : Request) :
  In rq (requests (CallToolRequest_handler host request)) ->
  String.prefix (API_BASE host) (url rq) = true
  /\ ((name request = "add_task" /\ method rq = POST /\
       url rq = API_BASE host /\
       headers rq = [("Content-Type", "application/json")] /\
       body rq <> None)
      \/ (name request = "list_tasks" /\ method rq = GET /\
          headers rq = [] /\ body rq = None)
      \/ (name request = "update_task" /\ method rq = PATCH /\
          (exists id, url rq = API_BASE host ++ "/" ++ id) /\
          headers rq = [("Content-Type", "application/json")] /\
          body rq <> None)
      \/ (name request = "delete_task" /\ method rq = DELETE /\
          (exists id, url rq = API_BASE host ++ "/" ++ id) /\
          headers rq = [] /\ body rq = None)).
Proof.
  rewrite handler_requests. destruct request as [n args].
  destruct (dispatch_cases host n args)
    as [(e & ->)|[(o & _ & -> & ->)|[(o & params & _ & -> & _ & ->)
       |[(o & id & _ & -> & _ & ->)|(o & id & _ & -> & _ & ->)]]]]; simpl.
  - intros [].
  - intros [<-|[]]. split; [apply prefix_refl|].
    left. repeat split. discriminate.
  - intros [<-|[]]. split.
    + destruct (get_request_url host params) as [(_ & ->)|(_ & _ & ->)];
        [apply prefix_refl|apply prefix_append].
    + right; left. repeat split.
  - intros [<-|[]]. split; [apply prefix_append|].
    right; right; left. repeat split; [exists id; reflexivity|discriminate].
  - intros [<-|[]]. split; [apply prefix_append|].
    right; right; right. repeat split. exists id; reflexivity.
Qed.

Lemma request_shape_witness :
  String.prefix Scenario.base (Scenario.base ++ "/abc123") = true
  /\ method (patch_request (Scenario.store 200 (inr Scenario.record))
               "abc123" mark_done) = PATCH.
Proof.
  destruct (request_shape (Scenario.store 200 (inr Scenario.record))
              (mkCall "update_task" (Some mark_done))
              (patch_request (Scenario.store 200 (inr Scenario.record))
                 "abc123" mark_done)
              (or_introl eq_refl))
    as [Hprefix [(H & _)|[(H & _)|[(_ & Hmethod & _)|(H & _)]]]];
    try discriminate H.
  split; [exact Hprefix|exact Hmethod].
Defined.

(** *** Failures before the request *)

Lemma ToString_json_error (wording : fault -> string) (v : json) (e : Error) :
  ToString_json wording v = inl e -> e = TypeError wording NoPrimitiveValue.
Proof.
  destruct (ToString_json_converts wording v) as [Hyes Hno].
  destruct (convertible v).
  - destruct (Hyes eq_refl) as [s ->]. discriminate.
  - rewrite (Hno eq_refl). intros [= <-]. reflexivity.
Qed.

Lemma ToString_error (wording : fault -> string) (v : value) (e : Error) :
  ToString wording v = inl e -> error_name e = "TypeError".
Proof.
  destruct v as [j|]; [|discriminate].
  intros H. rewrite (ToString_json_error wording j e H). reflexivity.
Qed.

Lemma call_toString_error (wording : fault -> string) (callee : string)
      (v : value) (e : Error) :
  call_toString wording callee v = inl e -> error_name e = "TypeError".
Proof.
  destruct v as [[| b | z | s | elements | properties]|];
    unfold call_toString; try discriminate;
    try (intros [= <-]; reflexivity).
  - intros H. rewrite (ToString_json_error wording _ e H). reflexivity.
  - destruct (has_own "toString" properties); [|discriminate].
    intros [= <-]. reflexivity.
Qed.

Lemma entry_error (render : value -> Error + string) (key : string) (v : value)
      (e : Error) :
  (forall e', render v = inl e' -> error_name e' = "TypeError") ->
  entry render key v = inl e -> error_name e = "TypeError".
Proof.
  intros Hrender. unfold entry. destruct (truthy v); [|discriminate].
  destruct (render v) as [e'|s]; [|discriminate].
  intros [= <-]. apply Hrender. reflexivity.
Qed.

Lemma entries_error (host : Host) (filter sort page : value) (e : Error) :
  entries host filter sort page = inl e -> error_name e = "TypeError".
Proof.
  unfold entries.
  destruct (filter_entry host filter) as [e1|f] eqn:E1.
  { intros [= <-]. apply (entry_error _ _ _ _ (ToString_error _ _) E1). }
  destruct (sort_entry host sort) as [e2|s] eqn:E2.
  { intros [= <-]. apply (entry_error _ _ _ _ (ToString_error _ _) E2). }
  destruct (page_entry host page) as [e3|p] eqn:E3; [|discriminate].
  intros [= <-]. apply (entry_error _ _ _ _ (call_toString_error _ _ _) E3).
Qed.

(** A tool of the catalogue that throws before its request throws a
    TypeError of the engine. *)
Lemma local_failure_class (host : Host) (n : string) (args : option object)
      (e : Error) :
  In n (map Catalog.name catalogue) ->
  dispatch host (mkCall n args) = ([], inl e) ->
  error_name e = "TypeError".
Proof.
  intros Hin.
  assert (Hn : n = "add_task" \/ n = "list_tasks" \/ n = "update_task"
               \/ n = "delete_task")
    by (simpl in Hin; intuition congruence).
  destruct Hn as [-> | [-> | [-> | ->]]].
  - rewrite dispatch_add_task. destruct args as [o|].
    + rewrite add_task_run. discriminate.
    + intros [= <-]. reflexivity.
  - rewrite dispatch_list_tasks. destruct args as [o|].
    + destruct (entries host (lookup "filter" o) (lookup "sort" o)
                  (lookup "page" o)) as [e'|params] eqn:E.
      * rewrite (list_tasks_throws _ _ _ E). intros [= <-].
        apply (entries_error _ _ _ _ _ E).
      * rewrite (list_tasks_run _ _ _ E). discriminate.
    + intros [= <-]. reflexivity.
  - rewrite dispatch_update_task. destruct args as [o|].
    + destruct (ToString (wording host) (lookup "task_id" o)) as [e'|id] eqn:E.
      * rewrite (update_task_throws _ _ _ E). intros [= <-].
        apply (ToString_error _ _ _ E).
      * rewrite (update_task_run _ _ _ E). discriminate.
    + intros [= <-]. reflexivity.
  - rewrite dispatch_delete_task. destruct args as [o|].
    + destruct (ToString (wording host) (lookup "task_id" o)) as [e'|id] eqn:E.
      * rewrite (delete_task_throws _ _ _ E). intros [= <-].
        apply (ToString_error _ _ _ E).
      * rewrite (delete_task_run _ _ _ E). discriminate.
    + intros [= <-]. reflexivity.
Qed.

(** X6. The catalogue and the switch agree on the tools: the branch of
    an invocation throws the error [Unknown tool: <name>] before any
    request exactly when the catalogue lists no tool of that name. *)
Theorem catalogue_matches_switch (host : Host) (n : string)
        (args : option object) :
  dispatch host (mkCall n args) =
    ([], inl (mkError "Error" ("Unknown tool: " ++ n)))
  <-> ~ In n (map Catalog.name catalogue).
Proof.
  split.
  - intros H Hin.
    pose proof (local_failure_class host n args _ Hin H) as Hclass.
    discriminate Hclass.
  - intros Hout.
    apply (dispatch_unknown host (mkCall n args)); simpl;
      intros ->; apply Hout; simpl; tauto.
Qed.

(** *** What a branch reads of the bag *)

(** X7. add_task, list_tasks and delete_task read of the argument bag
    the parameters their descriptor declares and nothing else: two bags
    that hold the same value, or none, under each declared parameter give
    the same requests and the same envelope. *)
Theorem declared_arguments_only (host : Host) (tool : Catalog.Tool)
        (o o' : object) :
  tool = Catalog.add_task \/ tool = Catalog.list_tasks
  \/ tool = Catalog.delete_task ->
  agree (declared tool) o o' ->
  CallToolRequest_handler host (mkCall (Catalog.name tool) (Some o)) =
    CallToolRequest_handler host (mkCall (Catalog.name tool) (Some o')).
Proof.
  intros [-> | [-> | ->]] Hagree; unfold CallToolRequest_handler; simpl Catalog.name.
  - rewrite !dispatch_add_task, !add_task_run. unfold post_request.
    rewrite (Hagree "name"), (Hagree "description") by (simpl; tauto).
    reflexivity.
  - rewrite !dispatch_list_tasks. unfold list_tasks.
    rewrite !search_params_run.
    rewrite (Hagree "filter"), (Hagree "sort"), (Hagree "page")
      by (simpl; tauto).
    reflexivity.
  - rewrite !dispatch_delete_task. unfold delete_task, get.
    rewrite (Hagree "task_id") by (simpl; tauto).
    reflexivity.
Qed.

(** A second bag with a property add_task does not declare. *)
Lemma declared_arguments_only_witness :
  CallToolRequest_handler (Scenario.store 200 (inr Scenario.record))
    (mkCall "add_task" (Some buy_milk)) =
  CallToolRequest_handler (Scenario.store 200 (inr Scenario.record))
    (mkCall "add_task" (Some (("done", JBool true) :: buy_milk))).
Proof.
  apply (declared_arguments_only (Scenario.store 200 (inr Scenario.record))
           Catalog.add_task buy_milk (("done", JBool true) :: buy_milk)
           (or_introl eq_refl)).
  intros key [<-|[<-|[]]]; reflexivity.
Defined.

(** X8. With an argument bag, update_task and delete_task fail before
    their request in one case only: when task_id has no conversion to a
    string, being an object with a toString property of its own, alone or
    inside arrays.  Then no request is issued and the envelope reports the
    engine's fault; in every other case exactly one request is issued. *)
Theorem task_id_conversion (host : Host) (n : string) (o : object) :
  n = "update_task" \/ n = "delete_task" ->
  (convertible_value (lookup "task_id" o) = true ->
   exists rq, requests (CallToolRequest_handler host (mkCall n (Some o))) = [rq])
  /\ (convertible_value (lookup "task_id" o) = false ->
      CallToolRequest_handler host (mkCall n (Some o)) =
        ([], inr {| content :=
                      [ {| type := "text";
                           text := "Error: " ++ wording host NoPrimitiveValue |} ];
                    isError := Some true |})).
Proof.
  intros Hn.
  destruct (ToString_converts (wording host) (lookup "task_id" o))
    as [Hyes Hno].
  split.
  - intros H. destruct (Hyes H) as [id Hid]. rewrite handler_requests.
    destruct Hn as [-> | ->].
    + rewrite dispatch_update_task, (update_task_run _ _ _ Hid).
      eexists. reflexivity.
    + rewrite dispatch_delete_task, (delete_task_run _ _ _ Hid).
      eexists. reflexivity.
  - intros H. pose proof (Hno H) as Hid. unfold CallToolRequest_handler.
    destruct Hn as [-> | ->].
    + rewrite dispatch_update_task, (update_task_throws _ _ _ Hid).
      reflexivity.
    + rewrite dispatch_delete_task, (delete_task_throws _ _ _ Hid).
      reflexivity.
Qed.

(** A task_id that is a number, and one that is an array holding an
    object with a toString property. *)
Lemma task_id_conversion_witness :
  (exists rq,
     requests (CallToolRequest_handler (Scenario.store 200 (inr Scenario.record))
                 (mkCall "delete_task" (Some [("task_id", JNum (mkNumber 7 eq_refl))]))) = [rq])
  /\ requests (CallToolRequest_handler (Scenario.store 200 (inr Scenario.record))
                 (mkCall "delete_task"
                    (Some [("task_id",
                            JArr [JStr "a"; JObj [("toString", JNull)]])]))) = [].
Proof.
  split.
  - apply (proj1 (task_id_conversion (Scenario.store 200 (inr Scenario.record))
                    "delete_task" [("task_id", JNum (mkNumber 7 eq_refl))] (or_intror eq_refl))).
    reflexivity.
  - exact (f_equal requests
             (proj2 (task_id_conversion
                       (Scenario.store 200 (inr Scenario.record))
                       "delete_task"
                       [("task_id", JArr [JStr "a"; JObj [("toString", JNull)]])]
                       (or_intror eq_refl)) eq_refl)).
Defined.

(** *** The query of list_tasks, further *)

Lemma entry_succeeds (wording : fault -> string) (key : string) (v : value) :
  (exists pairs, entry (ToString wording) key v = inr pairs)
  <-> (truthy v = true -> convertible_value v = true).
Proof.
  unfold entry.
  destruct (ToString_converts wording v) as [Hyes Hno].
  destruct (truthy v).
  - destruct (convertible_value v).
    + destruct (Hyes eq_refl) as [s ->].
      split; [reflexivity|]. intros _. eexists. reflexivity.
    + rewrite (Hno eq_refl).
      split; [intros [pairs H]; discriminate H|].
      intros H. discriminate (H eq_refl).
  - split; [discriminate|]. intros _. eexists. reflexivity.
Qed.

Lemma page_entry_succeeds (host : Host) (v : value) :
  (exists pairs, page_entry host v = inr pairs)
  <-> (truthy v = true -> convertible_value v = true).
Proof.
  unfold page_entry, entry, call_toString.
  destruct v as [[| b | z | s | elements | properties]|].
  - simpl. split; [discriminate|]. intros _. eexists. reflexivity.
  - simpl. destruct b; (split; [reflexivity|]); intros _; eexists; reflexivity.
  - simpl. destruct (negb (integer z =? 0)%Z);
      (split; [reflexivity|]); intros _; eexists; reflexivity.
  - simpl. destruct (negb (String.eqb s ""));
      (split; [reflexivity|]); intros _; eexists; reflexivity.
  - change (truthy (Some (JArr elements))) with true.
    change (convertible_value (Some (JArr elements)))
      with (convertible (JArr elements)).
    destruct (ToString_json_converts (wording host) (JArr elements))
      as [Hyes Hno].
    destruct (convertible (JArr elements)).
    + destruct (Hyes eq_refl) as [s ->].
      split; [reflexivity|]. intros _. eexists. reflexivity.
    + rewrite (Hno eq_refl).
      split; [intros [pairs H]; discriminate H|].
      intros H. discriminate (H eq_refl).
  - change (truthy (Some (JObj properties))) with true.
    simpl convertible_value.
    destruct (has_own "toString" properties); simpl.
    + split; [intros [pairs H]; discriminate H|].
      intros H. discriminate (H eq_refl).
    + split; [reflexivity|]. intros _. eexists. reflexivity.
  - simpl. split; [discriminate|]. intros _. eexists. reflexivity.
Qed.

(** X9. With an argument bag, list_tasks issues its request exactly when
    each of filter, sort and page is falsy or has a conversion to a
    string; a truthy parameter without one makes the invocation fail
    before any request. *)
Theorem list_tasks_conversion (host : Host) (o : object) :
  (exists rq,
     requests (CallToolRequest_handler host (mkCall "list_tasks" (Some o)))
       = [rq])
  <-> (forall key,
         In key ["filter"; "sort"; "page"] ->
         truthy (lookup key o) = true ->
         convertible_value (lookup key o) = true).
Proof.
  rewrite handler_requests, dispatch_list_tasks.
  pose proof (entry_succeeds (wording host) "filter" (lookup "filter" o)) as Hf.
  pose proof (entry_succeeds (wording host) "sort" (lookup "sort" o)) as Hs.
  pose proof (page_entry_succeeds host (lookup "page" o)) as Hp.
  fold (filter_entry host (lookup "filter" o)) in Hf.
  fold (sort_entry host (lookup "sort" o)) in Hs.
  destruct (entries host (lookup "filter" o) (lookup "sort" o)
              (lookup "page" o)) as [e|params] eqn:E.
  - rewrite (list_tasks_throws _ _ _ E). split.
    + intros [rq H]. discriminate H.
    + intros H. exfalso. unfold entries in E.
      destruct (proj2 Hf (H "filter" (or_introl eq_refl))) as [f Ef].
      destruct (proj2 Hs (H "sort" (or_intror (or_introl eq_refl)))) as [s Es].
      destruct (proj2 Hp (H "page" (or_intror (or_intror (or_introl eq_refl)))))
        as [p Ep].
      rewrite Ef, Es, Ep in E. discriminate E.
  - rewrite (list_tasks_run _ _ _ E). split; [|intros _; eexists; reflexivity].
    intros _ key Hkey.
    destruct (entries_inv host _ _ _ _ E) as (f & s & p & Ef & Es & Ep & _).
    destruct Hkey as [<-|[<-|[<-|[]]]].
    + apply (proj1 Hf). exists f. exact Ef.
    + apply (proj1 Hs). exists s. exact Es.
    + apply (proj1 Hp). exists p. exact Ep.
Qed.

Lemma forall_chars_join (p : ascii -> bool) (sep : string) (parts : list string) :
  forall_chars p sep = true ->
  Forall (fun s => forall_chars p s = true) parts ->
  forall_chars p (join sep parts) = true.
Proof.
  intros Hsep. induction 1 as [|s rest Hs Hrest IH]; [reflexivity|].
  destruct rest as [|s' rest]; [exact Hs|].
  change (join sep (s :: s' :: rest)) with (s ++ sep ++ join sep (s' :: rest)).
  rewrite !forall_chars_app, Hs, Hsep, IH. reflexivity.
Qed.

Lemma escaped_is_query_char (c : ascii) :
  escaped_char c = true -> query_char c = true.
Proof.
  unfold query_char. intros ->. reflexivity.
Qed.

Lemma toString_chars (params : URL.URLSearchParams) :
  forall_chars query_char (URL.toString params) = true.
Proof.
  unfold URL.toString. apply forall_chars_join; [reflexivity|].
  apply Forall_forall. intros piece Hin. apply in_map_iff in Hin.
  destruct Hin as (q & <- & _). unfold URL.pair_toString.
  rewrite !forall_chars_app.
  rewrite !(forall_chars_weaken _ _ _ escaped_is_query_char (encode_chars _)).
  reflexivity.
Qed.

Lemma entry_shape (render : value -> Error + string) (key : string) (v : value)
      (pairs : URL.URLSearchParams) :
  entry render key v = inr pairs ->
  pairs = [] \/ exists s, pairs = [(key, s)].
Proof.
  unfold entry. destruct (truthy v); [|intros [= <-]; left; reflexivity].
  destruct (render v) as [e|s]; [discriminate|].
  intros [= <-]. right. exists s. reflexivity.
Qed.

(** A pair of the query as it is written: the name and the value, each
    already encoded. *)
Lemma written_pair (key s : string) :
  In key ["filter"; "sort"; "page"] ->
  In (fst (URL.encode key, URL.encode s)) ["filter"; "sort"; "page"]
  /\ forall_chars escaped_char (snd (URL.encode key, URL.encode s)) = true.
Proof.
  intros Hkey. split; [|apply encode_chars].
  destruct Hkey as [<-|[<-|[<-|[]]]]; simpl; tauto.
Qed.

Lemma written_entry (render : value -> Error + string) (key : string)
      (v : value) (pairs : URL.URLSearchParams) :
  entry render key v = inr pairs ->
  In key ["filter"; "sort"; "page"] ->
  Forall (fun p =>
            In (fst (URL.encode (fst p), URL.encode (snd p)))
               ["filter"; "sort"; "page"]
            /\ forall_chars escaped_char
                 (snd (URL.encode (fst p), URL.encode (snd p))) = true)
         pairs.
Proof.
  intros H Hkey.
  destruct (entry_shape _ _ _ _ H) as [->|(s & ->)]; constructor;
    [|constructor].
  apply written_pair. exact Hkey.
Qed.

(** X10. Whatever the arguments, the URL of a list_tasks request is the
    base address, alone or followed by a question mark and a query of
    one to three pairs joined by ampersands, each a name, an equals sign
    and a value.  The names are among filter, sort and page, and every
    value is made of ASCII letters and digits and of the characters
    [* - . _ + %] only: the ampersands and equals signs of the query are
    those the serializer puts between and inside the pairs, so that no
    character of the arguments can end a value or add a parameter. *)
Theorem list_tasks_url_characters (host : Host) (args : option object)
        (rq : Request) :
  In rq (requests (CallToolRequest_handler host (mkCall "list_tasks" args))) ->
  url rq = API_BASE host
  \/ exists written : list (string * string),
       url rq =
         API_BASE host ++ "?"
           ++ join "&" (map (fun p => fst p ++ "=" ++ snd p) written)
       /\ written <> [] /\ length written <= 3
       /\ Forall (fun p => In (fst p) ["filter"; "sort"; "page"]
                           /\ forall_chars escaped_char (snd p) = true)
                 written
       /\ escaped_char "&" = false /\ escaped_char "=" = false
       /\ forall_chars query_char
            (join "&" (map (fun p => fst p ++ "=" ++ snd p) written)) = true.
Proof.
  intros Hin.
  destruct (list_tasks_requests host args rq Hin)
    as (o & params & _ & E & -> & _).
  destruct (get_request_url host params) as [(_ & ->)|(Hne & _ & ->)];
    [left; reflexivity|].
  right.
  exists (map (fun p => (URL.encode (fst p), URL.encode (snd p))) params).
  assert (Htext : join "&" (map (fun p => fst p ++ "=" ++ snd p)
                              (map (fun p => (URL.encode (fst p),
                                              URL.encode (snd p))) params))
                  = URL.toString params)
    by (rewrite map_map; reflexivity).
  rewrite Htext.
  destruct (entries_inv host _ _ _ _ E) as (f & s & p & Hf & Hs & Hp & ->).
  split; [reflexivity|].
  split; [intros H; apply map_eq_nil in H; contradiction|].
  split.
  { rewrite length_map, !length_app.
    destruct (entry_shape _ _ _ _ Hf) as [->|(? & ->)];
      destruct (entry_shape _ _ _ _ Hs) as [->|(? & ->)];
      destruct (entry_shape _ _ _ _ Hp) as [->|(? & ->)]; simpl; lia. }
  split.
  { apply Forall_map. rewrite !Forall_app.
    split; [|split].
    - apply (written_entry _ _ _ _ Hf). simpl; tauto.
    - apply (written_entry _ _ _ _ Hs). simpl; tauto.
    - apply (written_entry _ _ _ _ Hp). simpl; tauto. }
  split; [reflexivity|]. split; [reflexivity|].
  apply toString_chars.
Qed.

(** A filter with a space, an ampersand, an equals sign and a hash. *)
Lemma list_tasks_url_characters_witness :
  exists written,
    url (get_request (Scenario.store 200 (inr Scenario.record))
           [("filter", "a b&page=9#")]) =
      Scenario.base ++ "?"
        ++ join "&" (map (fun p => fst p ++ "=" ++ snd p) written)
    /\ length written <= 3
    /\ Forall (fun p => In (fst p) ["filter"; "sort"; "page"]
                        /\ forall_chars escaped_char (snd p) = true) written
    /\ url (get_request (Scenario.store 200 (inr Scenario.record))
              [("filter", "a b&page=9#")]) =
         Scenario.base ++ "?filter=a+b%26page%3D9%23".
Proof.
  destruct (list_tasks_url_characters (Scenario.store 200 (inr Scenario.record))
              (Some [("filter", JStr "a b&page=9#")])
              (get_request (Scenario.store 200 (inr Scenario.record))
                 [("filter", "a b&page=9#")])
              (or_introl eq_refl))
    as [H|(written & Hurl & _ & Hlength & Hall & _)]; [discriminate H|].
  exists written.
  split; [exact Hurl|]. split; [exact Hlength|]. split; [exact Hall|].
  reflexivity.
Defined.

Lemma entry_of_string (render : value -> Error + string) (key t : string)
      (pairs : URL.URLSearchParams) :
  render (Some (JStr t)) = inr t -> t <> "" ->
  entry render key (Some (JStr t)) = inr pairs -> pairs = [(key, t)].
Proof.
  intros Hrender Ht. unfold entry. simpl truthy.
  apply String.eqb_neq in Ht. rewrite Ht, Hrender. simpl.
  intros [= <-]. reflexivity.
Qed.

(** X11. The query of a list_tasks request, read by the standard parser
    of form-urlencoded text, gives back the pairs the handler appended,
    in the order filter, sort, page: each parameter gives nothing or its
    own name with the conversion of the value supplied, and a non-empty
    string given as filter or sort comes back byte for byte, whatever
    characters it holds. *)
Theorem list_tasks_query_reads_back (host : Host) (o : object) (rq : Request)
        (query : string) :
  In rq (requests (CallToolRequest_handler host
                     (mkCall "list_tasks" (Some o)))) ->
  url rq = API_BASE host ++ "?" ++ query ->
  exists f s p,
    Form.parse query = (f ++ s ++ p)%list /\
    from_supplied o "filter" (ToString (wording host)) f /\
    from_supplied o "sort" (ToString (wording host)) s /\
    from_supplied o "page"
      (call_toString (wording host) "args.page.toString") p /\
    (forall t, lookup "filter" o = Some (JStr t) -> t <> "" ->
               f = [("filter", t)]) /\
    (forall t, lookup "sort" o = Some (JStr t) -> t <> "" ->
               s = [("sort", t)]).
Proof.
  intros Hin Hurl.
  destruct (list_tasks_requests host (Some o) rq Hin)
    as (o' & params & [= <-] & E & -> & _).
  destruct (entries_inv host _ _ _ _ E) as (f & s & p & Hf & Hs & Hp & ->).
  assert (Hquery : query = URL.toString (f ++ s ++ p)%list).
  { destruct (get_request_url host (f ++ s ++ p)%list)
      as [(_ & Hbare)|(_ & _ & Hfull)].
    - rewrite Hbare in Hurl. apply append_fixed in Hurl. discriminate Hurl.
    - rewrite Hfull in Hurl. apply append_cancel in Hurl.
      apply (append_cancel "?") in Hurl. symmetry. exact Hurl. }
  exists f, s, p. rewrite Hquery, query_round_trip.
  split; [reflexivity|].
  split; [apply entry_from_supplied; exact Hf|].
  split; [apply entry_from_supplied; exact Hs|].
  split; [apply entry_from_supplied; exact Hp|].
  split.
  - intros t L Ht. unfold filter_entry in Hf. rewrite L in Hf.
    apply (entry_of_string _ _ _ _ eq_refl Ht Hf).
  - intros t L Ht. unfold sort_entry in Hs. rewrite L in Hs.
    apply (entry_of_string _ _ _ _ eq_refl Ht Hs).
Qed.

(** The filter of the previous example, read back. *)
Lemma list_tasks_query_reads_back_witness :
  Form.parse "filter=a+b%26page%3D9%23&sort=-created" =
    [("filter", "a b&page=9#"); ("sort", "-created")].
Proof.
  destruct (list_tasks_query_reads_back
              (Scenario.store 200 (inr Scenario.record))
              [("filter", JStr "a b&page=9#"); ("sort", JStr "-created")]
              (get_request (Scenario.store 200 (inr Scenario.record))
                 [("filter", "a b&page=9#"); ("sort", "-created")])
              "filter=a+b%26page%3D9%23&sort=-created"
              (or_introl eq_refl) eq_refl)
    as (f & s & p & Hparse & _ & _ & Hp & Hf & Hs).
  rewrite Hparse, (Hf "a b&page=9#" eq_refl), (Hs "-created" eq_refl)
    by discriminate.
  destruct Hp as [->|(v & t & L & _)]; [reflexivity|discriminate L].
Defined.

Lemma entry_empty (render : value -> Error + string) (key : string) (v : value)
      (pairs : URL.URLSearchParams) :
  entry render key v = inr pairs -> (pairs = [] <-> truthy v = false).
Proof.
  unfold entry. destruct (truthy v).
  - destruct (render v) as [e|s]; [discriminate|].
    intros [= <-]. split; discriminate.
  - intros [= <-]. split; reflexivity.
Qed.

(** X12. The URL of a list_tasks request is the bare base address
    exactly when filter, sort and page are all three falsy (missing,
    null, false, 0 or the empty string); one truthy parameter is enough
    for the question mark and a query to follow. *)
Theorem bare_url_iff_nothing_truthy (host : Host) (o : object) (rq : Request) :
  In rq (requests (CallToolRequest_handler host
                     (mkCall "list_tasks" (Some o)))) ->
  (url rq = API_BASE host <->
   truthy (lookup "filter" o) = false /\ truthy (lookup "sort" o) = false
   /\ truthy (lookup "page" o) = false).
Proof.
  intros Hin.
  destruct (list_tasks_requests host (Some o) rq Hin)
    as (o' & params & [= <-] & E & -> & _).
  destruct (entries_inv host _ _ _ _ E) as (f & s & p & Hf & Hs & Hp & ->).
  pose proof (entry_empty _ _ _ _ Hf) as Ef.
  pose proof (entry_empty _ _ _ _ Hs) as Es.
  pose proof (entry_empty _ _ _ _ Hp) as Ep.
  destruct (get_request_url host (f ++ s ++ p)%list)
    as [(Hnil & ->)|(Hcons & _ & ->)].
  - split; [intros _|reflexivity].
    apply app_eq_nil in Hnil. destruct Hnil as [Hfnil Hrest].
    apply app_eq_nil in Hrest. destruct Hrest as [Hsnil Hpnil].
    split; [apply Ef; exact Hfnil|].
    split; [apply Es; exact Hsnil|apply Ep; exact Hpnil].
  - split.
    + intros H. symmetry in H. apply append_fixed in H. discriminate H.
    + intros (Tf & Ts & Tp). exfalso. apply Hcons.
      rewrite (proj2 Ef Tf), (proj2 Es Ts), (proj2 Ep Tp). reflexivity.
Qed.

(** A bag whose only truthy parameter is page. *)
Lemma bare_url_iff_nothing_truthy_witness :
  url (get_request (Scenario.store 200 (inr Scenario.record)) [("page", "3")])
    <> Scenario.base.
Proof.
  intros H.
  destruct (proj1 (bare_url_iff_nothing_truthy
                     (Scenario.store 200 (inr Scenario.record))
                     [("filter", JStr ""); ("page", JNum (mkNumber 3 eq_refl))]
                     (get_request (Scenario.store 200 (inr Scenario.record))
                        [("page", "3")])
                     (or_introl eq_refl)) H)
    as (_ & _ & Hpage).
  discriminate Hpage.
Defined.

(** *** Bodies *)

(** X13. add_task checks nothing of its arguments: whatever the bag
    holds, exactly one POST to the base address is issued, and its body
    is the serialization of the object that holds name and description,
    in this order, each only when the bag supplies it.  A bag without
    the required name is sent all the same, and one with neither as the
    empty object. *)
Theorem add_task_is_sent_as_it_comes (host : Host) (o : object) :
  requests (CallToolRequest_handler host (mkCall "add_task" (Some o))) =
    [ {| url := API_BASE host;
         method := POST;
         headers := [("Content-Type", "application/json")];
         body :=
           Some (JSON_stringify
                   (JObj (match lookup "name" o with
                          | Some v => [("name", v)]
                          | None => []
                          end
                          ++ match lookup "description" o with
                             | Some v => [("description", v)]
                             | None => []
                             end)%list)) |} ]
  /\ (lookup "name" o = None -> lookup "description" o = None ->
      requests (CallToolRequest_handler host (mkCall "add_task" (Some o))) =
        [ {| url := API_BASE host;
             method := POST;
             headers := [("Content-Type", "application/json")];
             body := Some "{}" |} ]).
Proof.
  rewrite handler_requests, dispatch_add_task, add_task_run.
  unfold post_request, JSON_stringify_literal, requests. simpl fst.
  split.
  - destruct (lookup "name" o), (lookup "description" o); reflexivity.
  - intros -> ->. reflexivity.
Qed.

(** A bag that holds neither a name nor a description. *)
Lemma add_task_is_sent_as_it_comes_witness :
  requests (CallToolRequest_handler (Scenario.store 400 (inr Scenario.not_found))
              (mkCall "add_task" (Some [("done", JBool true)]))) =
    [ {| url := Scenario.base;
         method := POST;
         headers := [("Content-Type", "application/json")];
         body := Some "{}" |} ].
Proof.
  apply (proj2 (add_task_is_sent_as_it_comes
                  (Scenario.store 400 (inr Scenario.not_found))
                  [("done", JBool true)])); reflexivity.
Defined.

Lemma digits_printable (d : Decimal.uint) :
  forall_chars printable (NilEmpty.string_of_uint d) = true.
Proof.
  induction d; simpl; try rewrite IHd; reflexivity.
Qed.

Lemma Number_toString_printable (z : Number) :
  forall_chars printable (Number_toString z) = true.
Proof.
  unfold Number_toString, NilZero.string_of_int, NilZero.string_of_uint.
  destruct (Z.to_int (integer z)) as [d|d]; destruct d; try reflexivity;
    apply (digits_printable (_ d)) || (simpl; apply digits_printable).
Qed.

Lemma quote_char_printable (c : ascii) :
  forall_chars printable (quote_char c) = true.
Proof. each_byte c. Qed.

Lemma QuoteJSONString_printable (s : string) :
  forall_chars printable (QuoteJSONString s) = true.
Proof.
  unfold QuoteJSONString. rewrite !forall_chars_app.
  assert (H : forall_chars printable (quote_chars s) = true).
  { induction s as [|c s IH]; [reflexivity|].
    simpl quote_chars. rewrite forall_chars_app, quote_char_printable, IH.
    reflexivity. }
  rewrite H. reflexivity.
Qed.

Lemma wrap_printable (open close stepback indent : string)
      (partial : list string) :
  forall_chars printable open = true -> forall_chars printable close = true ->
  Forall (fun s => forall_chars printable s = true) partial ->
  forall_chars printable (wrap open close "" stepback indent partial) = true.
Proof.
  intros Hopen Hclose Hpartial. unfold wrap.
  destruct partial as [|p rest].
  - rewrite forall_chars_app, Hopen, Hclose. reflexivity.
  - change (String.eqb "" "") with true. cbv iota.
    rewrite !forall_chars_app, Hopen, Hclose.
    rewrite (forall_chars_join printable "," (p :: rest) eq_refl Hpartial).
    reflexivity.
Qed.

(** The compact serialization holds no control character. *)
Lemma JSON_stringify_printable (v : json) :
  forall_chars printable (JSON_stringify v) = true.
Proof.
  unfold JSON_stringify. generalize "" at 2 as indent.
  induction v as [|b|z|s|elements IH|properties IH] using json_nested_ind;
    intros indent.
  - reflexivity.
  - destruct b; reflexivity.
  - apply Number_toString_printable.
  - apply QuoteJSONString_printable.
  - simpl. apply wrap_printable; [reflexivity|reflexivity|].
    generalize (indent ++ "") as inner. intros inner.
    induction IH as [|e rest He _ IHrest]; constructor; [apply He|exact IHrest].
  - simpl. apply wrap_printable; [reflexivity|reflexivity|].
    generalize (indent ++ "") as inner. intros inner.
    induction IH as [|[k e] rest He _ IHrest]; constructor; [|exact IHrest].
    unfold member. change (String.eqb "" "") with true. cbv iota.
    rewrite !forall_chars_app, QuoteJSONString_printable. simpl in He.
    rewrite He. reflexivity.
Qed.

(** X14. The body of every request is free of control characters: a line
    break, a tab or any other byte below 32 in the arguments reaches the
    store as an escape inside a JSON string, never as the byte itself. *)
Theorem bodies_hold_no_control_character (host : Host)
        (request : CallToolRequest) (rq : Request) (text : string) :
  In rq (requests (CallToolRequest_handler host request)) ->
  body rq = Some text ->
  forall_chars printable text = true.
Proof.
  rewrite handler_requests. destruct request as [n args].
  destruct (dispatch_cases host n args)
    as [(e & ->)|[(o & _ & _ & ->)|[(o & params & _ & _ & _ & ->)
       |[(o & id & _ & _ & _ & ->)|(o & id & _ & _ & _ & ->)]]]]; simpl.
  - intros [].
  - intros [<-|[]]. simpl. intros [= <-]. apply JSON_stringify_printable.
  - intros [<-|[]]. discriminate.
  - intros [<-|[]]. simpl. intros [= <-]. apply JSON_stringify_printable.
  - intros [<-|[]]. discriminate.
Qed.

(** A name of two lines. *)
Lemma bodies_hold_no_control_character_witness :
  forall_chars printable
    (JSON_stringify (JObj [("name", JStr ("Buy" ++ newline ++ "milk"))])) = true
  /\ JSON_stringify (JObj [("name", JStr ("Buy" ++ newline ++ "milk"))]) =
       "{" ++ double_quote ++ "name" ++ double_quote ++ ":"
           ++ double_quote ++ "Buy\nmilk" ++ double_quote ++ "}".
Proof.
  split; [|reflexivity].
  apply (bodies_hold_no_control_character
           (Scenario.store 200 (inr Scenario.record))
           (mkCall "add_task"
              (Some [("name", JStr ("Buy" ++ newline ++ "milk"))]))
           (post_request (Scenario.store 200 (inr Scenario.record))
              [("name", JStr ("Buy" ++ newline ++ "milk"))]));
    [left; reflexivity|reflexivity].
Defined.
